(** * worktracker: accrual engine, store, CLI entry points and Home Assistant export

    A shallow embedding of the worktracker command-line layer
    ([src/worktracker/cli.py]) and of the Home Assistant export
    ([src/worktracker/homeassistant.py]), together with the store and the
    accrual engine those entry points drive.

    Conventions.
    - Python [int] is [Z]; [//] and [%] by a positive constant are [Z.div]
      and [Z.modulo] (both round towards minus infinity, as Python does).
    - Python [str] is [string]; the double quote character is written
      through its code (see [dq]).
    - A naive [datetime] is a record of its calendar day and time of day;
      [(a - b).total_seconds()] is [total_seconds a b].
    - The per-day table of the database is a [gmap] from the date to its row.
    - A method that talks to collaborators is an interaction tree over the
      calls it makes; [run] executes such a tree against an environment and
      records every call with its answer. *)

From stdpp Require Import gmap strings pretty list.
From ITree Require Import ITree.
From Stdlib Require Import ZArith Lia.

Local Open Scope Z_scope.

(** ** Python values shared by every module *)

Module Py.

(** An exception instance; [str(e)] is its message. *)
Inductive exn : Type :=
| PyException (msg : string).

Definition str_exn (e : exn) : string :=
  match e with PyException msg => msg end.

(** The outcome of a call that may raise. *)
Inductive res (A : Type) : Type :=
| Ok (a : A)
| Raise (e : exn).
Arguments Ok {A} a.
Arguments Raise {A} e.

(** The double quote character, code 34. *)
Definition dq : string := String (Ascii.ascii_of_nat 34) EmptyString.

(** The line feed character, code 10. *)
Definition nl : string := String (Ascii.ascii_of_nat 10) EmptyString.

(** [str(n)] for an [int]. *)
Definition str_int (n : Z) : string := pretty n.

(** [n] copies of the character ['0']. *)
Fixpoint zeros (n : nat) : string :=
  match n with
  | O => EmptyString
  | S k => "0" +:+ zeros k
  end.

(** [format(n, '02d')]: decimal digits, zero-filled to width two; the
    sign of a negative number takes one column of the width and comes
    before the fill. *)
Definition format_02d (n : Z) : string :=
  if n <? 0
  then let digits := pretty (Z.to_N (- n)) in
       "-" +:+ zeros (1 - String.length digits)%nat +:+ digits
  else let digits := pretty (Z.to_N n) in
       zeros (2 - String.length digits)%nat +:+ digits.

(** [needle in haystack] for strings, as a proposition. *)
Definition contains (haystack needle : string) : Prop :=
  exists pre post : string, haystack = pre +:+ needle +:+ post.

End Py.

(** ** Data model *)

(** A naive [datetime]: the ordinal of the calendar day and the time of
    day. Sub-second precision is not represented. *)
Record datetime : Type := mk_datetime {
  dt_date : Z;
  dt_hour : Z;
  dt_minute : Z;
  dt_second : Z
}.

(** Seconds since the start of day zero. *)
Definition seconds_of (t : datetime) : Z :=
  dt_date t * 86400 + dt_hour t * 3600 + dt_minute t * 60 + dt_second t.

(** [(a - b).total_seconds()]. *)
Definition total_seconds (a b : datetime) : Z := seconds_of a - seconds_of b.

(** [t.strftime("%H:%M")]. *)
Definition strftime_HM (t : datetime) : string :=
  Py.format_02d (dt_hour t) +:+ ":" +:+ Py.format_02d (dt_minute t).

(** One row per calendar date. *)
Record DailyLog : Type := mk_DailyLog {
  date : Z;
  total_active_time : Z;
  last_update : datetime
}.

(** ** The store *)

(** Modelled from the spec: the Store of section 4.1, standing for the
    absent [database.py]. *)
Module Store.

(** The persisted table: at most one row per date. *)
Abbreviation t := (gmap Z DailyLog).

(** What the store signals to its caller. *)
Inductive error : Type :=
| DecreasingTotal (stored attempted : Z).

Inductive outcome : Type :=
| Written
| Rejected (e : error).

Definition fresh_row (now : datetime) : DailyLog :=
  {| date := dt_date now; total_active_time := 0; last_update := now |}.

(** Modelled from the spec: [Store.get_today] of the absent
    [database.py]. Returns the row of the current local date; when it is
    absent, creates and returns a zero-valued row whose [last_update] is
    the time of the call. *)
Definition get_today (now : datetime) (st : t) : DailyLog * t :=
  match st !! dt_date now with
  | Some log => (log, st)
  | None => (fresh_row now, <[dt_date now := fresh_row now]> st)
  end.

(** Modelled from the spec: [Store.upsert_today] of the absent
    [database.py]. Writes the new total for the current date [today],
    creating the row if necessary; a total below the stored one is
    signalled to the caller and not applied. *)
Definition upsert_today (today : Z) (total : Z) (last_upd : datetime)
    (st : t) : outcome * t :=
  let row := {| date := today; total_active_time := total;
                last_update := last_upd |} in
  match st !! today with
  | Some old =>
      if total <? total_active_time old
      then (Rejected (DecreasingTotal (total_active_time old) total), st)
      else (Written, <[today := row]> st)
  | None => (Written, <[today := row]> st)
  end.

(** Modelled from the spec: [Store.get_log] of the absent [database.py]. *)
Definition get_log (d : Z) (st : t) : option DailyLog := st !! d.

(** The total a read of date [d] reports: the stored one, or the zero of
    the row a first read creates. *)
Definition read_total (d : Z) (st : t) : Z :=
  match st !! d with
  | Some log => total_active_time log
  | None => 0
  end.

End Store.

(** ** The accrual engine *)

(** Modelled from the spec: the AccrualEngine of section 4.2, standing
    for the absent [tracker.py]. *)
Module AccrualEngine.

(** The two policy constants. *)
Record Config : Type := mk_Config {
  idle_threshold : Z;
  max_tick_gap : Z
}.

(** What [IdleSource.query()] yields. *)
Inductive IdleQuery : Type :=
| Sample (idle_duration : Z)
| IdleSourceError.

Inductive warning : Type :=
| IdleSourceFailed.

Record StatusSnapshot : Type := mk_StatusSnapshot {
  status_label : string;
  total_active_seconds : Z;
  snapshot_last_update : datetime
}.

Definition clamp (x lo hi : Z) : Z := Z.max lo (Z.min x hi).

(** [sample.idle_duration < idle_threshold]; a failed query counts as
    idle. *)
Definition is_active (cfg : Config) (q : IdleQuery) : bool :=
  match q with
  | Sample d => d <? idle_threshold cfg
  | IdleSourceError => false
  end.

Definition warnings_of (q : IdleQuery) : list warning :=
  match q with
  | Sample _ => []
  | IdleSourceError => [IdleSourceFailed]
  end.

Definition label (active : bool) : string :=
  if active then "active" else "idle".

(** Modelled from the spec: [AccrualEngine.update] of the absent
    [tracker.py], as the pseudo-code of section 4.2 gives it. The result
    is what the store signalled, the warnings, and the store afterwards. *)
Definition update (cfg : Config) (now : datetime) (q : IdleQuery)
    (st : Store.t) : Store.outcome * list warning * Store.t :=
  let active := is_active cfg q in
  let '(log, st1) := Store.get_today now st in
  let elapsed := total_seconds now (last_update log) in
  let elapsed := clamp elapsed 0 (max_tick_gap cfg) in
  let new_total :=
    if active then total_active_time log + elapsed
    else total_active_time log in
  let '(r, st2) := Store.upsert_today (dt_date now) new_total now st1 in
  (r, warnings_of q, st2).

(** Modelled from the spec: [AccrualEngine.status] of the absent
    [tracker.py], the read path of section 4.2. *)
Definition status (cfg : Config) (now : datetime) (q : IdleQuery)
    (st : Store.t) : StatusSnapshot * Store.t :=
  let active := is_active cfg q in
  let '(log, st1) := Store.get_today now st in
  (mk_StatusSnapshot (label active) (total_active_time log)
     (last_update log), st1).

(** The seconds one tick credits to the row [log] it finds. *)
Definition accrued (cfg : Config) (now : datetime) (q : IdleQuery)
    (log : DailyLog) : Z :=
  if is_active cfg q
  then clamp (total_seconds now (last_update log)) 0 (max_tick_gap cfg)
  else 0.

(** One scheduled invocation: the clock and the idle source it sees. *)
Record Tick : Type := mk_Tick {
  tick_now : datetime;
  tick_idle : IdleQuery
}.

Definition tick (cfg : Config) (k : Tick) (st : Store.t)
    : Store.outcome * list warning * Store.t :=
  update cfg (tick_now k) (tick_idle k) st.

(** A finite sequence of ticks, each a process of its own: the store
    after the last one and what each tick's write signalled. *)
Fixpoint run_ticks (cfg : Config) (ks : list Tick) (st : Store.t)
    : list Store.outcome * Store.t :=
  match ks with
  | [] => ([], st)
  | k :: ks' =>
      let '(r, _, st1) := tick cfg k st in
      let '(rs, st2) := run_ticks cfg ks' st1 in
      (r :: rs, st2)
  end.




(** [n] status queries in a row at [now]: the totals they report and
    the store afterwards. *)
Fixpoint status_calls (cfg : Config) (n : nat) (now : datetime)
    (q : IdleQuery) (st : Store.t) : list Z * Store.t :=
  match n with
  | O => ([], st)
  | S n' =>
      let '(snap, st1) := status cfg now q st in
      let '(ts, st2) := status_calls cfg n' now q st1 in
      (total_active_seconds snap :: ts, st2)
  end.

End AccrualEngine.

(** ** Running a program against an environment *)

Section Run.

Context {E : Type -> Type} {W : Type}.

(** The environment: how each call is answered, and what it becomes. *)
Variable respond : forall X : Type, E X -> W -> X * W.

(** One entry of the trace: a call and its answer. *)
Inductive call : Type :=
| Call {X : Type} (e : E X) (x : X).

(** Runs [t] for at most [fuel] steps: the value returned, the
    environment afterwards and the calls made, in order. *)
Fixpoint run {R : Type} (fuel : nat) (t : itree E R) (w : W)
    : option (R * W * list call) :=
  match fuel with
  | O => None
  | S fuel' =>
      match observe t with
      | RetF r => Some (r, w, [])
      | TauF t' => run fuel' t' w
      | VisF e k =>
          let '(x, w1) := respond _ e w in
          match run fuel' (k x) w1 with
          | Some (r, w2, tr) => Some (r, w2, Call e x :: tr)
          | None => None
          end
      end
  end.

End Run.

Arguments call E : clear implicits.
Arguments Call {E X} e x.

Notation "'let*' x ':=' t 'in' k" :=
  (ITree.bind t (fun x => k))
  (at level 10, x name, t at level 100, k at level 200, only parsing).
Notation "t ';;;' k" :=
  (ITree.bind t (fun _ => k))
  (at level 100, k at level 200, right associativity, only parsing).

(** ** Home Assistant export ([homeassistant.py]) *)

Module HomeAssistant.

Import Py.

(** The one ambient call of the module: [socket.gethostname()]. *)
Variant socketE : Type -> Type :=
| GetHostname : socketE string.

(** Joins lines, each ended by a line feed. *)
Fixpoint unlines (ls : list string) : string :=
  match ls with
  | [] => EmptyString
  | l :: ls' => l +:+ nl +:+ unlines ls'
  end.

(** The f-string of [generate_yaml_config], line by line, after the
    doubled braces of the template are reduced. *)
Definition yaml_lines (hostname : string) : list string :=
  [ "mqtt:";
    "  sensor:";
    "    # Daily Total Active Time (formatted as hours:minutes)";
    "    - name: " +:+ dq +:+ "WorkTracker Daily Time" +:+ dq;
    "      unique_id: " +:+ dq +:+ "worktracker_" +:+ hostname
      +:+ "_daily_time" +:+ dq;
    "      state_topic: " +:+ dq +:+ "worktracker/" +:+ hostname
      +:+ "/status" +:+ dq;
    "      value_template: >";
    "        {% set total_seconds = value_json.total_time | int %}";
    "        {% set hours = (total_seconds / 3600) | int %}";
    "        {% set minutes = ((total_seconds % 3600) / 60) | int %}";
    "        {% if hours > 0 %}{{ hours }}h {% if minutes > 0 %}{{ minutes }}m{% endif %}{% else %}{{ minutes }}m{% endif %}";
    "      icon: " +:+ dq +:+ "mdi:clock-outline" +:+ dq;
    "      device:";
    "        identifiers:";
    "          - " +:+ dq +:+ "worktracker_" +:+ hostname +:+ dq;
    "        name: " +:+ dq +:+ "WorkTracker - " +:+ hostname +:+ dq;
    "        manufacturer: " +:+ dq +:+ "WorkTracker" +:+ dq;
    "        model: " +:+ dq +:+ "WorkTracker" +:+ dq ].

Definition yaml_config (hostname : string) : string :=
  unlines (yaml_lines hostname).

(** The two lines of the template that carry the state topic and the
    unique id. *)
Definition state_topic_line (hostname : string) : string :=
  "      state_topic: " +:+ dq +:+ "worktracker/" +:+ hostname
  +:+ "/status" +:+ dq.

Definition unique_id_line (hostname : string) : string :=
  "      unique_id: " +:+ dq +:+ "worktracker_" +:+ hostname
  +:+ "_daily_time" +:+ dq.

(** [generate_yaml_config(hostname=None)]. *)
Definition generate_yaml_config (hostname : option string)
    : itree socketE string :=
  let* hostname :=
    match hostname with
    | None => ITree.trigger GetHostname
    | Some h => Ret h
    end in
  Ret (yaml_config hostname).

(** An environment for [socketE]: the machine's host name. *)
Definition host_respond (X : Type) (e : socketE X) (host : string)
    : X * string :=
  match e in socketE X return X * string with
  | GetHostname => (host, host)
  end.

(** The value of the first line of [text] that reads [key: "value"]
    after its indentation. *)
Fixpoint strip_spaces (s : string) : string :=
  match s with
  | EmptyString => EmptyString
  | String c s' =>
      if Ascii.eqb c (Ascii.ascii_of_nat 32) then strip_spaces s' else s
  end.

Fixpoint strip_prefix (p s : string) : option string :=
  match p, s with
  | EmptyString, _ => Some s
  | String a p', String b s' =>
      if Ascii.eqb a b then strip_prefix p' s' else None
  | String _ _, EmptyString => None
  end.

Fixpoint until_quote (s : string) : string :=
  match s with
  | EmptyString => EmptyString
  | String c s' =>
      if Ascii.eqb c (Ascii.ascii_of_nat 34) then EmptyString
      else String c (until_quote s')
  end.

Fixpoint split_lines (s : string) (cur : string) : list string :=
  match s with
  | EmptyString => [cur]
  | String c s' =>
      if Ascii.eqb c (Ascii.ascii_of_nat 10)
      then cur :: split_lines s' EmptyString
      else split_lines s' (cur +:+ String c EmptyString)
  end.

Fixpoint first_field (key : string) (ls : list string) : option string :=
  match ls with
  | [] => None
  | l :: ls' =>
      match strip_prefix (key +:+ ": " +:+ dq) (strip_spaces l) with
      | Some rest => Some (until_quote rest)
      | None => first_field key ls'
      end
  end.

Definition yaml_field (key text : string) : option string :=
  first_field key (split_lines text EmptyString).

End HomeAssistant.

(** ** The publisher's configuration and topic *)

Module Publisher.

(** Modelled from the spec: the validated configuration record that
    [load_config] of the absent [mqtt_config.py] yields; the field names
    are those [cli.py] reads. *)
Record PublishConfig : Type := mk_PublishConfig {
  broker_ip : string;
  port : Z;
  topic_prefix : string;
  update_interval : Z;
  qos : Z
}.

(** Modelled from the spec: the topic on which the absent
    [mqtt_client.py] publishes the status message,
    ["{topic_prefix}/{host_identifier}/status"]. *)
Definition status_topic (config : PublishConfig) (host_identifier : string)
    : string :=
  topic_prefix config +:+ "/" +:+ host_identifier +:+ "/status".

End Publisher.

(** ** The command-line layer ([cli.py]) *)

Module Cli.

Import Py Publisher.

(** The two exceptions of [load_config] that its callers handle. *)
Inductive load_error : Type :=
| FileNotFoundError (msg : string)
| ValueError (msg : string).

Inductive loaded : Type :=
| Loaded (config : PublishConfig)
| LoadFailed (err : load_error).

Inductive signum : Type := SIGINT | SIGTERM.

(** How [time.sleep] ends: normally, or cut short by a signal or a
    keyboard interrupt, either of which runs the shutdown handler. *)
Inductive slept : Type := Slept | Interrupted.

(** The calls the methods make. A call made inside a [try] block
    answers with a [res]; the collaborators called outside any [try]
    block are taken to return. *)
Variant cliE : Type -> Type :=
| Stdout (line : string) : cliE unit
| LoggingBasicConfig : cliE unit
| LoggingError (msg : string) (exc_info : bool) : cliE unit
| IsTimerInstalled : cliE bool
| IsTimerRunning : cliE bool
| IsTimerEnabled : cliE bool
| NewWorkTracker : cliE unit
| GetCurrentStatus : cliE (res (string * Z))
| UpdateTime : cliE (res unit)
| NewDatabase : cliE (res unit)
| GetTodayLog : cliE (res DailyLog)
| DbClose : cliE (res unit)
| LoadConfig : cliE loaded
| NewMQTTClient (config : PublishConfig) : cliE unit
| ClientStart : cliE bool
| ClientConnect : cliE bool
| ClientPublishStatus : cliE bool
| ClientDisconnect : cliE unit
| ClientStop : cliE unit
| ClientIsRunning : cliE bool
| SignalSignal (sig : signum) : cliE unit
| TimeSleep (seconds : Z) : cliE slept
| SysExit (code : Z) : cliE unit.

Definition print (line : string) : itree cliE unit :=
  ITree.trigger (Stdout line).

(** Sequencing inside a [try] block: the first exception ends the
    block. *)
Definition try_bind {A B : Type} (c : itree cliE (res A))
    (k : A -> itree cliE (res B)) : itree cliE (res B) :=
  let* r := c in
  match r with
  | Ok a => k a
  | Raise e => Ret (Raise e)
  end.

(** [try: body / except Exception as e: handler e], followed by [k]. *)
Definition try_except {A R : Type} (body : itree cliE (res A))
    (handler : exn -> itree cliE R) (k : A -> itree cliE R)
    : itree cliE R :=
  let* r := body in
  match r with
  | Ok a => k a
  | Raise e => handler e
  end.

Notation "'try*' x ':=' c 'in' k" :=
  (try_bind c (fun x => k))
  (at level 10, x name, c at level 100, k at level 200, only parsing).

Definition yes_no (b : bool) : string := if b then "Yes" else "No".

(** [WorkTrackerCLI.status]. *)
Definition status : itree cliE Z :=
  let* installed := ITree.trigger IsTimerInstalled in
  if negb installed then
    print "Timer status: Not installed" ;;;
    print (nl +:+ "Run 'worktracker install' to set up tracking.") ;;;
    Ret 1
  else
    let* is_running := ITree.trigger IsTimerRunning in
    let* is_enabled := ITree.trigger IsTimerEnabled in
    print "Timer status:" ;;;
    print "  Installed: Yes" ;;;
    print ("  Enabled: " +:+ yes_no is_enabled) ;;;
    print ("  Running: " +:+ yes_no is_running) ;;;
    ITree.trigger NewWorkTracker ;;;
    try_except
      (try* current := ITree.trigger GetCurrentStatus in
       let '(status_str, total_seconds) := current in
       print (nl +:+ "Current state:") ;;;
       print ("  Status: " +:+ status_str) ;;;
       try* _ := ITree.trigger NewDatabase in
       try* today_log := ITree.trigger GetTodayLog in
       try* _ := ITree.trigger DbClose in
       print (nl +:+ "Today's summary:") ;;;
       let hours := total_active_time today_log / 3600 in
       let minutes := (total_active_time today_log mod 3600) / 60 in
       let last_update := strftime_HM (last_update today_log) in
       print ("  Total active time: " +:+ format_02d hours +:+ ":"
              +:+ format_02d minutes) ;;;
       print ("  Last update: " +:+ last_update) ;;;
       Ret (Ok tt))
      (fun e =>
         print (nl +:+ "ERROR: Failed to get status: " +:+ str_exn e) ;;;
         Ret 1)
      (fun _ => Ret 0).

(** [WorkTrackerCLI.update]. *)
Definition update : itree cliE Z :=
  ITree.trigger LoggingBasicConfig ;;;
  ITree.trigger NewWorkTracker ;;;
  try_except
    (try* _ := ITree.trigger UpdateTime in
     Ret (Ok 0))
    (fun e =>
       ITree.trigger (LoggingError ("Update error: " +:+ str_exn e) true) ;;;
       Ret 1)
    (fun code => Ret code).

(** The two [except] clauses that follow [config = load_config()]. *)
Definition report_load_error (err : load_error) : string :=
  match err with
  | FileNotFoundError e => "ERROR: " +:+ e
  | ValueError e => "ERROR: Invalid configuration: " +:+ e
  end.

(** [sys.exit(code)]: the process ends with [code]. *)
Definition sys_exit (code : Z) : itree cliE Z :=
  ITree.trigger (SysExit code) ;;;
  Ret code.

(** The nested [signal_handler] of [mqtt_start]. *)
Definition signal_handler : itree cliE Z :=
  print (nl +:+ "Stopping MQTT publisher...") ;;;
  ITree.trigger ClientStop ;;;
  sys_exit 0.

(** One round of [while client.is_running(): time.sleep(1)]: [inl] goes
    round again, [inr code] leaves with the exit code, which is the
    [return 0] after the loop or the handler's [sys.exit(0)]. *)
Definition keep_running (_ : unit) : itree cliE (unit + Z) :=
  let* running := ITree.trigger ClientIsRunning in
  if running : bool then
    let* s := ITree.trigger (TimeSleep 1) in
    match s with
    | Slept => Ret (inl tt)
    | Interrupted =>
        let* code := signal_handler in
        Ret (inr code)
    end
  else Ret (inr 0).

(** [WorkTrackerCLI.mqtt_start]. *)
Definition mqtt_start : itree cliE Z :=
  print "Starting MQTT publisher..." ;;;
  let* r := ITree.trigger LoadConfig in
  match r with
  | LoadFailed err => print (report_load_error err) ;;; Ret 1
  | Loaded config =>
      ITree.trigger NewWorkTracker ;;;
      ITree.trigger (NewMQTTClient config) ;;;
      let* started := ITree.trigger ClientStart in
      if negb started then
        print "ERROR: Failed to start MQTT publisher" ;;;
        Ret 1
      else
        print "✓ MQTT publisher started" ;;;
        print "Press Ctrl+C to stop..." ;;;
        ITree.trigger (SignalSignal SIGINT) ;;;
        ITree.trigger (SignalSignal SIGTERM) ;;;
        ITree.iter keep_running tt
  end.

(** [WorkTrackerCLI.mqtt_status]. *)
Definition mqtt_status : itree cliE Z :=
  let* r := ITree.trigger LoadConfig in
  match r with
  | Loaded config =>
      print "MQTT Configuration:" ;;;
      print ("  Broker: " +:+ broker_ip config +:+ ":"
             +:+ str_int (port config)) ;;;
      print ("  Topic prefix: " +:+ topic_prefix config) ;;;
      print ("  Update interval: " +:+ str_int (update_interval config)
             +:+ "s") ;;;
      print ("  QoS: " +:+ str_int (qos config)) ;;;
      print (nl +:+ "NOTE: Use 'worktracker mqtt start' to run the publisher.") ;;;
      Ret 0
  | LoadFailed err => print (report_load_error err) ;;; Ret 1
  end.

(** [WorkTrackerCLI.mqtt_publish]. *)
Definition mqtt_publish : itree cliE Z :=
  print "Publishing status to MQTT broker..." ;;;
  let* r := ITree.trigger LoadConfig in
  match r with
  | LoadFailed err => print (report_load_error err) ;;; Ret 1
  | Loaded config =>
      ITree.trigger NewWorkTracker ;;;
      ITree.trigger (NewMQTTClient config) ;;;
      let* connected := ITree.trigger ClientConnect in
      if negb connected then
        print "ERROR: Failed to connect to MQTT broker" ;;;
        Ret 1
      else
        let* published := ITree.trigger ClientPublishStatus in
        if published : bool then
          print "✓ Status published successfully" ;;;
          ITree.trigger ClientDisconnect ;;;
          Ret 0
        else
          print "ERROR: Failed to publish status" ;;;
          ITree.trigger ClientDisconnect ;;;
          Ret 1
  end.

(** *** Reading a trace *)

Abbreviation trace := (list (call cliE)).

(** A broker connection attempt: [client.connect()] or
    [client.start()]. *)
Definition is_connect (c : call cliE) : bool :=
  match c with
  | Call ClientConnect _ | Call ClientStart _ => true
  | Call _ _ => false
  end.

Definition is_publish (c : call cliE) : bool :=
  match c with
  | Call ClientPublishStatus _ => true
  | Call _ _ => false
  end.

(** A call that writes the counter: the tracker's update, the only
    path to [upsert_today]. *)
Definition is_update (c : call cliE) : bool :=
  match c with
  | Call UpdateTime _ => true
  | Call _ _ => false
  end.

(** A call that reaches for the store. *)
Definition is_store_call (c : call cliE) : bool :=
  match c with
  | Call GetCurrentStatus _ | Call UpdateTime _ | Call NewDatabase _
  | Call GetTodayLog _ | Call DbClose _ => true
  | Call _ _ => false
  end.

(** A call that raised. *)
Definition raised (c : call cliE) : bool :=
  match c with
  | Call GetCurrentStatus (Raise _) | Call UpdateTime (Raise _)
  | Call NewDatabase (Raise _) | Call GetTodayLog (Raise _)
  | Call DbClose (Raise _) => true
  | Call _ _ => false
  end.



(** The lines printed, in order. *)
Fixpoint stdout (tr : trace) : list string :=
  match tr with
  | [] => []
  | Call (Stdout line) _ :: tr' => line :: stdout tr'
  | Call _ _ :: tr' => stdout tr'
  end.

(** The messages logged at error level, in order. *)
Fixpoint logged (tr : trace) : list string :=
  match tr with
  | [] => []
  | Call (LoggingError msg _) _ :: tr' => msg :: logged tr'
  | Call _ _ :: tr' => logged tr'
  end.

(** The answer of the first [is_timer_installed()] call. *)
Fixpoint installed_answer (tr : trace) : option bool :=
  match tr with
  | [] => None
  | Call IsTimerInstalled b :: _ => Some b
  | Call _ _ :: tr' => installed_answer tr'
  end.

(** The outcome of the first [tracker.update_time()] call. *)
Fixpoint update_answer (tr : trace) : option (res unit) :=
  match tr with
  | [] => None
  | Call UpdateTime r :: _ => Some r
  | Call _ _ :: tr' => update_answer tr'
  end.

(** The outcome of the first [db.get_today_log()] call. *)
Fixpoint today_log_answer (tr : trace) : option (res DailyLog) :=
  match tr with
  | [] => None
  | Call GetTodayLog r :: _ => Some r
  | Call _ _ :: tr' => today_log_answer tr'
  end.

(** The outcome of the first [load_config()] call. *)
Fixpoint load_answer (tr : trace) : option loaded :=
  match tr with
  | [] => None
  | Call LoadConfig r :: _ => Some r
  | Call _ _ :: tr' => load_answer tr'
  end.

(** What was done with the MQTT client, in order. *)
Inductive client_op : Type :=
| Constructed (config : PublishConfig)
| Started (ok : bool)
| Connected (ok : bool)
| Published (ok : bool)
| Disconnected
| Stopped
| Polled (running : bool).

Fixpoint client_log (tr : trace) : list client_op :=
  match tr with
  | [] => []
  | Call (NewMQTTClient config) _ :: tr' => Constructed config :: client_log tr'
  | Call ClientStart ok :: tr' => Started ok :: client_log tr'
  | Call ClientConnect ok :: tr' => Connected ok :: client_log tr'
  | Call ClientPublishStatus ok :: tr' => Published ok :: client_log tr'
  | Call ClientDisconnect _ :: tr' => Disconnected :: client_log tr'
  | Call ClientStop _ :: tr' => Stopped :: client_log tr'
  | Call ClientIsRunning b :: tr' => Polled b :: client_log tr'
  | Call _ _ :: tr' => client_log tr'
  end.

(** The two lines of today's summary that [status] prints for a row. *)
Definition total_line (log : DailyLog) : string :=
  "  Total active time: "
  +:+ format_02d (total_active_time log / 3600) +:+ ":"
  +:+ format_02d ((total_active_time log mod 3600) / 60).

Definition last_update_line (log : DailyLog) : string :=
  "  Last update: " +:+ format_02d (dt_hour (last_update log)) +:+ ":"
  +:+ format_02d (dt_minute (last_update log)).

End Cli.

(** ** A deployment: the collaborators of the command-line layer *)

Module Deployment.

Import Py Cli.

(** The publisher of section 4.3 as the commands see it: not built
    yet, built from a configuration, or started, with its loop running
    and the seconds it has slept since it last woke. *)
Inductive client_state : Type :=
| NoClient
| Built (config : Publisher.PublishConfig)
| Looping (config : Publisher.PublishConfig) (waited : Z).

(** The machine a command runs on: the persisted table and whether it
    can be opened, the clock, the idle source, the scheduler's timer,
    the configuration file, the broker and the publisher. *)
Record world : Type := mk_world {
  engine : AccrualEngine.Config;
  store : Store.t;
  store_up : bool;
  clock : datetime;
  idle : AccrualEngine.IdleQuery;
  timer_installed : bool;
  timer_running : bool;
  timer_enabled : bool;
  config_file : loaded;
  broker_up : bool;
  publish_ok : bool;
  rounds : nat;
  client : client_state
}.

Definition set_store (st : Store.t) (w : world) : world :=
  {| engine := engine w; store := st; store_up := store_up w;
     clock := clock w; idle := idle w;
     timer_installed := timer_installed w;
     timer_running := timer_running w;
     timer_enabled := timer_enabled w;
     config_file := config_file w; broker_up := broker_up w;
     publish_ok := publish_ok w; rounds := rounds w;
     client := client w |}.

Definition set_rounds (n : nat) (w : world) : world :=
  {| engine := engine w; store := store w; store_up := store_up w;
     clock := clock w; idle := idle w;
     timer_installed := timer_installed w;
     timer_running := timer_running w;
     timer_enabled := timer_enabled w;
     config_file := config_file w; broker_up := broker_up w;
     publish_ok := publish_ok w; rounds := n;
     client := client w |}.

Definition set_clock (now : datetime) (w : world) : world :=
  {| engine := engine w; store := store w; store_up := store_up w;
     clock := now; idle := idle w;
     timer_installed := timer_installed w;
     timer_running := timer_running w;
     timer_enabled := timer_enabled w;
     config_file := config_file w; broker_up := broker_up w;
     publish_ok := publish_ok w; rounds := rounds w;
     client := client w |}.

Definition set_client (c : client_state) (w : world) : world :=
  {| engine := engine w; store := store w; store_up := store_up w;
     clock := clock w; idle := idle w;
     timer_installed := timer_installed w;
     timer_running := timer_running w;
     timer_enabled := timer_enabled w;
     config_file := config_file w; broker_up := broker_up w;
     publish_ok := publish_ok w; rounds := rounds w;
     client := c |}.

Definition store_unreachable : exn :=
  PyException "unable to open database file".

Definition str_error (e : Store.error) : exn :=
  match e with
  | Store.DecreasingTotal stored attempted =>
      PyException ("total_active_time would decrease from "
                   +:+ str_int stored +:+ " to " +:+ str_int attempted)
  end.

(** The time [secs] seconds after [t]. *)
Definition later (secs : Z) (t : datetime) : datetime :=
  let s := seconds_of t + secs in
  {| dt_date := s / 86400;
     dt_hour := (s mod 86400) / 3600;
     dt_minute := (s mod 3600) / 60;
     dt_second := s mod 60 |}.

(** Modelled from the spec: the status query of the publisher of
    section 4.3, which calls [AccrualEngine.status()] and so reads
    today's row or creates it. With an unreachable store nothing is
    read. *)
Definition query_status (w : world) : world :=
  if store_up w then
    set_store
      (AccrualEngine.status (engine w) (clock w) (idle w) (store w)).2 w
  else w.

(** Modelled from the spec: the publish loop of sections 4.3 and 5
    while the caller sleeps [secs] seconds. The clock moves on; a
    running loop that has then slept [update_interval] seconds wakes,
    queries the status and starts its sleep again. *)
Definition sleep (secs : Z) (w : world) : world :=
  let w1 := set_clock (later secs (clock w)) w in
  match client w with
  | Looping config waited =>
      if Nat.eqb (rounds w) 0 then w1
      else if Publisher.update_interval config <=? waited + secs
      then set_client (Looping config 0) (query_status w1)
      else set_client (Looping config (waited + secs)) w1
  | _ => w1
  end.

(** Modelled from the spec: the methods of the absent [tracker.py],
    [database.py], [service.py], [mqtt_config.py] and [mqtt_client.py]
    that [cli.py] calls, answered by the accrual engine and the store of
    sections 4.1 and 4.2 and the publisher of section 4.3.
    [get_current_status] is the engine's [status], [update_time] its
    [update], [get_today_log] the store's [get_today]; an unreachable
    store raises. [publish_status()] queries the status before it
    publishes, and fails when the store cannot be reached. [start()]
    starts the loop when the broker is up; the loop sleeps first, runs
    while the caller sleeps, and is running for [rounds] polls; no
    signal arrives. *)
Definition respond (X : Type) (e : cliE X) (w : world) : X * world :=
  match e in cliE X return X * world with
  | Stdout _ => (tt, w)
  | LoggingBasicConfig => (tt, w)
  | LoggingError _ _ => (tt, w)
  | IsTimerInstalled => (timer_installed w, w)
  | IsTimerRunning => (timer_running w, w)
  | IsTimerEnabled => (timer_enabled w, w)
  | NewWorkTracker => (tt, w)
  | GetCurrentStatus =>
      if store_up w then
        let '(snap, st) :=
          AccrualEngine.status (engine w) (clock w) (idle w) (store w) in
        (Ok (AccrualEngine.status_label snap,
             AccrualEngine.total_active_seconds snap), set_store st w)
      else (Raise store_unreachable, w)
  | UpdateTime =>
      if store_up w then
        let '(r, _, st) :=
          AccrualEngine.update (engine w) (clock w) (idle w) (store w) in
        match r with
        | Store.Written => (Ok tt, set_store st w)
        | Store.Rejected err => (Raise (str_error err), set_store st w)
        end
      else (Raise store_unreachable, w)
  | NewDatabase =>
      (if store_up w then Ok tt else Raise store_unreachable, w)
  | GetTodayLog =>
      if store_up w then
        let '(log, st) := Store.get_today (clock w) (store w) in
        (Ok log, set_store st w)
      else (Raise store_unreachable, w)
  | DbClose => (Ok tt, w)
  | LoadConfig => (config_file w, w)
  | NewMQTTClient config => (tt, set_client (Built config) w)
  | ClientStart =>
      (broker_up w,
       match client w with
       | Built config =>
           if broker_up w then set_client (Looping config 0) w else w
       | _ => w
       end)
  | ClientConnect => (broker_up w, w)
  | ClientPublishStatus => (store_up w && publish_ok w, query_status w)
  | ClientDisconnect => (tt, w)
  | ClientStop =>
      (tt,
       match client w with
       | Looping config _ => set_client (Built config) w
       | _ => w
       end)
  | ClientIsRunning =>
      (match client w with
       | Looping _ _ => negb (Nat.eqb (rounds w) 0)
       | _ => false
       end, w)
  | SignalSignal _ => (tt, w)
  | TimeSleep secs => (Slept, set_rounds (Nat.pred (rounds w)) (sleep secs w))
  | SysExit _ => (tt, w)
  end.

End Deployment.

(** ** Sample inputs *)

Module Samples.

Import Py Cli Publisher.

Definition cfg : AccrualEngine.Config :=
  {| AccrualEngine.idle_threshold := 300;
     AccrualEngine.max_tick_gap := 120 |}.

(** Day 20000 at the given time of day. *)
Definition at_time (h m s : Z) : datetime :=
  {| dt_date := 20000; dt_hour := h; dt_minute := m; dt_second := s |}.

Definition row (total : Z) (upd : datetime) : DailyLog :=
  {| date := dt_date upd; total_active_time := total; last_update := upd |}.

(** A store holding one row: 3725 seconds, last written at 09:15:00. *)
Definition st1 : Store.t := {[ 20000 := row 3725 (at_time 9 15 0) ]}.

Definition active_tick (now : datetime) : AccrualEngine.Tick :=
  {| AccrualEngine.tick_now := now;
     AccrualEngine.tick_idle := AccrualEngine.Sample 0 |}.

Definition idle_tick (now : datetime) : AccrualEngine.Tick :=
  {| AccrualEngine.tick_now := now;
     AccrualEngine.tick_idle := AccrualEngine.Sample 600 |}.

Definition home_config : PublishConfig :=
  {| broker_ip := "192.168.1.10"; port := 1883; topic_prefix := "home";
     update_interval := 60; qos := 1 |}.

Definition default_config : PublishConfig :=
  {| broker_ip := "192.168.1.10"; port := 1883;
     topic_prefix := "worktracker"; update_interval := 60; qos := 1 |}.

(** A machine on which everything works. *)
Definition healthy : Deployment.world :=
  {| Deployment.engine := cfg;
     Deployment.store := st1;
     Deployment.store_up := true;
     Deployment.clock := at_time 9 16 0;
     Deployment.idle := AccrualEngine.Sample 0;
     Deployment.timer_installed := true;
     Deployment.timer_running := true;
     Deployment.timer_enabled := true;
     Deployment.config_file := Loaded default_config;
     Deployment.broker_up := true;
     Deployment.publish_ok := true;
     Deployment.rounds := 2;
     Deployment.client := Deployment.NoClient |}.


(** The healthy machine without its configuration file. *)
Definition no_config : Deployment.world :=
  {| Deployment.engine := cfg;
     Deployment.store := st1;
     Deployment.store_up := true;
     Deployment.clock := at_time 9 16 0;
     Deployment.idle := AccrualEngine.Sample 0;
     Deployment.timer_installed := true;
     Deployment.timer_running := true;
     Deployment.timer_enabled := true;
     Deployment.config_file :=
       LoadFailed (FileNotFoundError "MQTT configuration file not found");
     Deployment.broker_up := true;
     Deployment.publish_ok := true;
     Deployment.rounds := 2;
     Deployment.client := Deployment.NoClient |}.

(** The healthy machine on its first day: nothing persisted yet. *)
Definition first_day : Deployment.world :=
  {| Deployment.engine := cfg;
     Deployment.store := ∅;
     Deployment.store_up := true;
     Deployment.clock := at_time 9 16 0;
     Deployment.idle := AccrualEngine.Sample 0;
     Deployment.timer_installed := true;
     Deployment.timer_running := true;
     Deployment.timer_enabled := true;
     Deployment.config_file := Loaded default_config;
     Deployment.broker_up := true;
     Deployment.publish_ok := true;
     Deployment.rounds := 2;
     Deployment.client := Deployment.NoClient |}.

(** The first-day machine with a publisher that runs for 61 polls, one
    more than the seconds of its update interval. *)
Definition long_run : Deployment.world := Deployment.set_rounds 61 first_day.

(** The day after day 20000, at the given time of day. *)
Definition next_day (h m s : Z) : datetime :=
  {| dt_date := 20001; dt_hour := h; dt_minute := m; dt_second := s |}.

(** A status query ten seconds into the next day, on the sample store:
    what it reports and the store it leaves. *)
Definition asked : AccrualEngine.StatusSnapshot * Store.t :=
  AccrualEngine.status cfg (next_day 0 0 10) (AccrualEngine.Sample 0) st1.

(** The first tick of the next day, forty seconds in. *)
Definition first_tick : AccrualEngine.Tick := active_tick (next_day 0 0 40).



End Samples.

(** ** The remaining commands of [cli.py] *)

Module Commands.

Import Py Publisher Cli.

(** What [create_default_config()] does: the path of the file, or the
    [OSError] that [install] handles. *)
Inductive created : Type :=
| Created (config_path : string)
| CreateFailed (msg : string).

(** The two parsers whose help [main] prints. *)
Inductive parser : Type := TopParser | MqttParser.

(** What [parser.parse_args()] returns: the sub-command chosen, if any,
    and below [mqtt] the MQTT sub-command, if any. [parse_args()]
    returns only for a command line the parsers accept: no command or
    one of the seven added with [add_parser], and below [mqtt] no MQTT
    command or one of the four. For any other it prints the usage error
    and exits with status 2 inside [parse_args()], so the two final
    [else] branches of [main] are not reached from a command line. *)
Record Namespace : Type := mk_Namespace {
  command : option string;
  mqtt_command : option string
}.

(** The calls of the remaining commands that [cliE] does not have. *)
Variant svcE : Type -> Type :=
| NewServiceManager : svcE unit
| InstallTimer : svcE bool
| ReloadDaemon : svcE bool
| EnableTimer : svcE bool
| StartTimer : svcE bool
| StopTimer : svcE bool
| DisableTimer : svcE bool
| UninstallTimer : svcE bool
| DbConnect : svcE (res unit)
| CreateDefaultConfig : svcE created
| ParseArgs : svcE Namespace
| PrintHelp (p : parser) : svcE unit.

(** Every call of the command-line layer. *)
Abbreviation appE := (sum1 cliE svcE).

Definition cli {X : Type} (e : cliE X) : itree appE X :=
  ITree.trigger (inl1 e).

Definition svc {X : Type} (e : svcE X) : itree appE X :=
  ITree.trigger (inr1 e).

Definition say (line : string) : itree appE unit := cli (Stdout line).

(** A method of [Cli], run among all calls. *)
Definition method (m : itree cliE Z) : itree appE Z :=
  translate (fun (X : Type) (e : cliE X) => inl1 e) m.

(** Sequencing inside a [try] block, and [try]/[except], over any
    calls. *)
Definition try_then {E : Type -> Type} {A B : Type} (c : itree E (res A))
    (k : A -> itree E (res B)) : itree E (res B) :=
  let* r := c in
  match r with
  | Ok a => k a
  | Raise e => Ret (Raise e)
  end.

Definition try_catch {E : Type -> Type} {A R : Type}
    (body : itree E (res A)) (handler : exn -> itree E R)
    (k : A -> itree E R) : itree E R :=
  let* r := body in
  match r with
  | Ok a => k a
  | Raise e => handler e
  end.

(** [WorkTrackerCLI.install]. *)
Definition install : itree appE Z :=
  say "Installing worktracker..." ;;;
  try_catch
    (try_then (cli NewDatabase) (fun _ =>
     try_then (svc DbConnect) (fun _ =>
     try_then (cli DbClose) (fun _ =>
     say "✓ Database initialized" ;;;
     Ret (Ok tt)))))
    (fun e =>
       say ("ERROR: Failed to initialize database: " +:+ str_exn e) ;;;
       Ret 1)
    (fun _ =>
       let* made := svc CreateDefaultConfig in
       match made with
       | Created config_path =>
           say ("✓ MQTT configuration file created: " +:+ config_path) ;;;
           say "  NOTE: Please edit the file to set your MQTT broker IP address"
       | CreateFailed e =>
           say ("WARNING: Failed to create MQTT configuration file: " +:+ e)
       end ;;;
       let* installed := svc InstallTimer in
       if negb installed then
         say "ERROR: Failed to install systemd timer" ;;;
         Ret 1
       else
         say "✓ Timer file installed" ;;;
         let* reloaded := svc ReloadDaemon in
         (if negb reloaded
          then say "WARNING: Failed to reload systemd daemon"
          else say "✓ Systemd daemon reloaded") ;;;
         let* enabled := svc EnableTimer in
         if negb enabled then
           say "ERROR: Failed to enable timer" ;;;
           Ret 1
         else
           say "✓ Timer enabled" ;;;
           let* started := svc StartTimer in
           if negb started then
             say "ERROR: Failed to start timer" ;;;
             Ret 1
           else
             say "✓ Timer started" ;;;
             say (nl +:+ "worktracker has been installed and started successfully!") ;;;
             say "The timer will update your working time every minute." ;;;
             Ret 0).

(** [WorkTrackerCLI.stop]. *)
Definition stop : itree appE Z :=
  say "Stopping worktracker timer..." ;;;
  let* installed := cli IsTimerInstalled in
  if negb installed then
    say "ERROR: Timer is not installed" ;;;
    Ret 1
  else
    let* stopped := svc StopTimer in
    if negb stopped then
      say "ERROR: Failed to stop timer" ;;;
      Ret 1
    else
      let* disabled := svc DisableTimer in
      (if negb disabled
       then say "WARNING: Failed to disable timer"
       else say "✓ Timer stopped and disabled") ;;;
      say "worktracker timer has been stopped." ;;;
      Ret 0.

(** [WorkTrackerCLI.start]. *)
Definition start : itree appE Z :=
  say "Starting worktracker timer..." ;;;
  let* installed := cli IsTimerInstalled in
  if negb installed then
    say "ERROR: Timer is not installed" ;;;
    say "Run 'worktracker install' to set up the timer first." ;;;
    Ret 1
  else
    let* started := svc StartTimer in
    if negb started then
      say "ERROR: Failed to start timer" ;;;
      Ret 1
    else
      say "✓ Timer started" ;;;
      let* enabled := cli IsTimerEnabled in
      (if negb enabled then
         let* now_enabled := svc EnableTimer in
         if now_enabled : bool
         then say "✓ Timer enabled (will run automatically)"
         else say "WARNING: Timer started but failed to enable"
       else Ret tt) ;;;
      say "worktracker timer is now running." ;;;
      Ret 0.

(** [WorkTrackerCLI.uninstall]. *)
Definition uninstall : itree appE Z :=
  say "Uninstalling worktracker..." ;;;
  let* installed := cli IsTimerInstalled in
  if negb installed then
    say "Timer is not installed. Nothing to uninstall." ;;;
    Ret 0
  else
    let* running := cli IsTimerRunning in
    (if running : bool then
       let* stopped := svc StopTimer in
       if negb stopped
       then say "WARNING: Failed to stop timer"
       else say "✓ Timer stopped"
     else Ret tt) ;;;
    let* enabled := cli IsTimerEnabled in
    (if enabled : bool then
       let* disabled := svc DisableTimer in
       if negb disabled
       then say "WARNING: Failed to disable timer"
       else say "✓ Timer disabled"
     else Ret tt) ;;;
    let* removed := svc UninstallTimer in
    if negb removed then
      say "ERROR: Failed to uninstall timer" ;;;
      Ret 1
    else
      say "✓ Timer file removed" ;;;
      let* reloaded := svc ReloadDaemon in
      (if negb reloaded
       then say "WARNING: Failed to reload systemd daemon"
       else say "✓ Systemd daemon reloaded") ;;;
      say (nl +:+ "worktracker has been uninstalled successfully!") ;;;
      say "Note: Database files in ~/.worktracker/ were not removed." ;;;
      say "      To remove them manually, delete ~/.worktracker/ directory." ;;;
      Ret 0.

(** [WorkTrackerCLI.mqtt_stop]. *)
Definition mqtt_stop : itree appE Z :=
  say "Stopping MQTT publisher..." ;;;
  say "NOTE: If MQTT publisher is running in another terminal, use Ctrl+C there." ;;;
  say "      This command is for future systemd service integration." ;;;
  Ret 0.

(** [not value] for an attribute that is [None] or a string. *)
Definition falsy (value : option string) : bool :=
  match value with
  | None => true
  | Some EmptyString => true
  | Some (String _ _) => false
  end.

(** [value == name]. *)
Definition is_command (value : option string) (name : string) : bool :=
  match value with
  | None => false
  | Some s => String.eqb s name
  end.

(** The [mqtt] branch of [main]. *)
Definition main_mqtt (args : Namespace) : itree appE Z :=
  if falsy (mqtt_command args) then
    svc (PrintHelp MqttParser) ;;;
    Ret 1
  else if is_command (mqtt_command args) "start" then method mqtt_start
  else if is_command (mqtt_command args) "stop" then mqtt_stop
  else if is_command (mqtt_command args) "status" then method mqtt_status
  else if is_command (mqtt_command args) "publish" then method mqtt_publish
  else
    svc (PrintHelp MqttParser) ;;;
    Ret 1.

(** [main]; [WorkTrackerCLI()] builds the service manager. *)
Definition main : itree appE Z :=
  let* args := svc ParseArgs in
  if falsy (command args) then
    svc (PrintHelp TopParser) ;;;
    Ret 1
  else
    svc NewServiceManager ;;;
    if is_command (command args) "install" then install
    else if is_command (command args) "stop" then stop
    else if is_command (command args) "start" then start
    else if is_command (command args) "uninstall" then uninstall
    else if is_command (command args) "status" then method status
    else if is_command (command args) "update" then method update
    else if is_command (command args) "mqtt" then main_mqtt args
    else
      svc (PrintHelp TopParser) ;;;
      Ret 1.

(** *** Reading a trace of all calls *)

Abbreviation app_trace := (list (call appE)).

(** The calls that belong to [cliE], in order. *)
Fixpoint cli_calls (tr : app_trace) : list (call cliE) :=
  match tr with
  | [] => []
  | Call (inl1 e) x :: tr' => Call e x :: cli_calls tr'
  | Call (inr1 _) _ :: tr' => cli_calls tr'
  end.

(** A trace over [cliE], read among all calls. *)
Definition inject (tr : list (call cliE)) : app_trace :=
  map (fun c => match c with Call e x => Call (inl1 e) x end) tr.

(** What was asked of the service manager that changes the timer, with
    its answer, in order. *)
Inductive timer_op : Type :=
| Install (ok : bool)
| Reload (ok : bool)
| Enable (ok : bool)
| Start (ok : bool)
| Stop (ok : bool)
| Disable (ok : bool)
| Uninstall (ok : bool).

Definition timer_op_of {X : Type} (e : svcE X) : X -> list timer_op :=
  match e in svcE X return X -> list timer_op with
  | InstallTimer => fun ok => [Install ok]
  | ReloadDaemon => fun ok => [Reload ok]
  | EnableTimer => fun ok => [Enable ok]
  | StartTimer => fun ok => [Start ok]
  | StopTimer => fun ok => [Stop ok]
  | DisableTimer => fun ok => [Disable ok]
  | UninstallTimer => fun ok => [Uninstall ok]
  | _ => fun _ => []
  end.

Fixpoint timer_log (tr : app_trace) : list timer_op :=
  match tr with
  | [] => []
  | Call (inl1 _) _ :: tr' => timer_log tr'
  | Call (inr1 e) x :: tr' => timer_op_of e x ++ timer_log tr'
  end.

(** The steps of the database initialisation of [install] and how each
    ended, in order. *)
Inductive db_op : Type :=
| Opened (ok : bool)
| Connected_db (ok : bool)
| Closed (ok : bool).

Definition succeeded {A : Type} (r : res A) : bool :=
  match r with Ok _ => true | Raise _ => false end.

Definition db_op_of_cli {X : Type} (e : cliE X) : X -> list db_op :=
  match e in cliE X return X -> list db_op with
  | NewDatabase => fun r => [Opened (succeeded r)]
  | DbClose => fun r => [Closed (succeeded r)]
  | _ => fun _ => []
  end.

Definition db_op_of_svc {X : Type} (e : svcE X) : X -> list db_op :=
  match e in svcE X return X -> list db_op with
  | DbConnect => fun r => [Connected_db (succeeded r)]
  | _ => fun _ => []
  end.

Fixpoint db_log (tr : app_trace) : list db_op :=
  match tr with
  | [] => []
  | Call (inl1 e) x :: tr' => db_op_of_cli e x ++ db_log tr'
  | Call (inr1 e) x :: tr' => db_op_of_svc e x ++ db_log tr'
  end.

(** Whether the configuration file was asked for, and made. *)
Definition config_made_of {X : Type} (e : svcE X) : X -> list bool :=
  match e in svcE X return X -> list bool with
  | CreateDefaultConfig =>
      fun made =>
        match made with
        | Created _ => [true]
        | CreateFailed _ => [false]
        end
  | _ => fun _ => []
  end.

Fixpoint config_log (tr : app_trace) : list bool :=
  match tr with
  | [] => []
  | Call (inl1 _) _ :: tr' => config_log tr'
  | Call (inr1 e) x :: tr' => config_made_of e x ++ config_log tr'
  end.

(** The parsers whose help was printed, in order. *)
Fixpoint help_log (tr : app_trace) : list parser :=
  match tr with
  | [] => []
  | Call (inr1 (PrintHelp p)) _ :: tr' => p :: help_log tr'
  | Call _ _ :: tr' => help_log tr'
  end.

(** The calls other than printing a line. *)
Fixpoint beyond_print (tr : app_trace) : app_trace :=
  match tr with
  | [] => []
  | Call (inl1 (Stdout _)) _ :: tr' => beyond_print tr'
  | c :: tr' => c :: beyond_print tr'
  end.

(** How each [time.sleep] ended, in order. *)
Fixpoint sleeps (tr : trace) : list slept :=
  match tr with
  | [] => []
  | Call (TimeSleep _) s :: tr' => s :: sleeps tr'
  | Call _ _ :: tr' => sleeps tr'
  end.

(** The signals for which a handler was registered, in order. *)
Fixpoint handlers (tr : trace) : list signum :=
  match tr with
  | [] => []
  | Call (SignalSignal sig) _ :: tr' => sig :: handlers tr'
  | Call _ _ :: tr' => handlers tr'
  end.

(** The codes passed to [sys.exit], in order. *)
Fixpoint exits (tr : trace) : list Z :=
  match tr with
  | [] => []
  | Call (SysExit code) _ :: tr' => code :: exits tr'
  | Call _ _ :: tr' => exits tr'
  end.

(** The answer of the first [is_timer_running()] call. *)
Fixpoint running_answer (tr : trace) : option bool :=
  match tr with
  | [] => None
  | Call IsTimerRunning b :: _ => Some b
  | Call _ _ :: tr' => running_answer tr'
  end.

(** The answer of the first [is_timer_enabled()] call. *)
Fixpoint enabled_answer (tr : trace) : option bool :=
  match tr with
  | [] => None
  | Call IsTimerEnabled b :: _ => Some b
  | Call _ _ :: tr' => enabled_answer tr'
  end.

(** The database steps of a trace over [cliE]. *)
Fixpoint db_log_cli (tr : trace) : list db_op :=
  match tr with
  | [] => []
  | Call e x :: tr' => db_op_of_cli e x ++ db_log_cli tr'
  end.

(** A run of a method of [Cli], read as a run among all calls. *)
Definition lifted {W : Type} (o : option (Z * W * trace))
    : option (Z * W * app_trace) :=
  match o with
  | Some (r, w, tr) => Some (r, w, inject tr)
  | None => None
  end.

(** A run that follows the calls [pre]. *)
Definition after {W : Type} (pre : app_trace)
    (o : option (Z * W * app_trace)) : option (Z * W * app_trace) :=
  match o with
  | Some (r, w, tr) => Some (r, w, pre ++ tr)
  | None => None
  end.

(** A trace that leaves the store, the database file, the configuration
    and the MQTT client alone. *)
Definition hands_off (tr : app_trace) : Prop :=
  existsb is_store_call (cli_calls tr) = false
  /\ db_log tr = []
  /\ config_log tr = []
  /\ load_answer (cli_calls tr) = None
  /\ client_log (cli_calls tr) = [].

(** The environment as a method of [Cli] sees it. *)
Definition cli_side {W : Type}
    (respond : forall X : Type, appE X -> W -> X * W)
    (X : Type) (e : cliE X) (w : W) : X * W :=
  respond X (inl1 e) w.

(** A host: a deployment, the command line, and how the service manager
    and the first-time set-up answer. *)
Record host : Type := mk_host {
  dep : Deployment.world;
  argv : Namespace;
  db_connect_ok : bool;
  config_made : created;
  install_ok : bool;
  reload_ok : bool;
  enable_ok : bool;
  start_ok : bool;
  stop_ok : bool;
  disable_ok : bool;
  uninstall_ok : bool
}.

Definition set_dep (d : Deployment.world) (h : host) : host :=
  {| dep := d; argv := argv h; db_connect_ok := db_connect_ok h;
     config_made := config_made h; install_ok := install_ok h;
     reload_ok := reload_ok h; enable_ok := enable_ok h;
     start_ok := start_ok h; stop_ok := stop_ok h;
     disable_ok := disable_ok h; uninstall_ok := uninstall_ok h |}.

Definition svc_respond (X : Type) (e : svcE X) (h : host) : X * host :=
  match e in svcE X return X * host with
  | NewServiceManager => (tt, h)
  | InstallTimer => (install_ok h, h)
  | ReloadDaemon => (reload_ok h, h)
  | EnableTimer => (enable_ok h, h)
  | StartTimer => (start_ok h, h)
  | StopTimer => (stop_ok h, h)
  | DisableTimer => (disable_ok h, h)
  | UninstallTimer => (uninstall_ok h, h)
  | DbConnect =>
      (if db_connect_ok h then Ok tt
       else Raise Deployment.store_unreachable, h)
  | CreateDefaultConfig => (config_made h, h)
  | ParseArgs => (argv h, h)
  | PrintHelp _ => (tt, h)
  end.

Definition host_respond (X : Type) (e : appE X) (h : host) : X * host :=
  match e with
  | inl1 e' =>
      let '(x, d) := Deployment.respond X e' (dep h) in (x, set_dep d h)
  | inr1 e' => svc_respond X e' h
  end.

(** The healthy deployment, called with the given command line. *)
Definition healthy_host (args : Namespace) : host :=
  {| dep := Samples.healthy; argv := args; db_connect_ok := true;
     config_made := Created "/home/user/.worktracker/mqtt_config.yaml";
     install_ok := true; reload_ok := true; enable_ok := true;
     start_ok := true; stop_ok := true; disable_ok := true;
     uninstall_ok := true |}.

End Commands.

(** ** Host names the template can carry *)

Module Hostname.

(** [c] does not occur in [s]. *)
Fixpoint lacks (c : Ascii.ascii) (s : string) : bool :=
  match s with
  | EmptyString => true
  | String x s' => negb (Ascii.eqb x c) && lacks c s'
  end.

(** Neither a double quote nor a line feed occurs in [s]. *)
Definition plain (s : string) : bool :=
  lacks (Ascii.ascii_of_nat 34) s && lacks (Ascii.ascii_of_nat 10) s.

End Hostname.

(** * Properties *)

(** ** The store and the accrual engine *)

Section EngineFacts.

Import AccrualEngine.

Variable cfg : Config.

Lemma clamp_nonneg (x hi : Z) : 0 <= clamp x 0 hi.
Proof. unfold clamp. lia. Qed.




Lemma accrued_nonneg now q log : 0 <= accrued cfg now q log.
Proof.
  unfold accrued. destruct (is_active cfg q); [apply clamp_nonneg | lia].
Qed.


Lemma total_seconds_self (now : datetime) : total_seconds now now = 0.
Proof. unfold total_seconds. lia. Qed.

(** What a read reports is the total of the row [get_today] returns. *)
Lemma get_today_total now (st : Store.t) :
  total_active_time (Store.get_today now st).1
  = Store.read_total (dt_date now) st.
Proof.
  unfold Store.get_today, Store.read_total.
  by destruct (st !! dt_date now).
Qed.

Lemma get_today_present now (st : Store.t) log :
  st !! dt_date now = Some log -> Store.get_today now st = (log, st).
Proof. intros H. unfold Store.get_today. by rewrite H. Qed.

Lemma get_today_keeps now (st : Store.t) d log :
  st !! d = Some log -> (Store.get_today now st).2 !! d = Some log.
Proof.
  intros H. unfold Store.get_today.
  destruct (st !! dt_date now) eqn:E; simpl; [done |].
  rewrite lookup_insert_ne; [done | congruence].
Qed.

(** The write of a tick is always applied, and it replaces today's row
    by the old total plus the seconds credited. *)
Lemma update_eq now q (st : Store.t) :
  update cfg now q st
  = (Store.Written, warnings_of q,
     <[dt_date now :=
         {| date := dt_date now;
            total_active_time :=
              total_active_time (Store.get_today now st).1
              + accrued cfg now q (Store.get_today now st).1;
            last_update := now |}]> st).
Proof.
  unfold update, accrued, Store.get_today, Store.upsert_today.
  destruct (st !! dt_date now) as [old|] eqn:E; simpl.
  - rewrite E.
    destruct (is_active cfg q).
    + pose proof (clamp_nonneg (total_seconds now (last_update old))
                    (max_tick_gap cfg)) as Hc.
      destruct (Z.ltb_spec
                  (total_active_time old
                   + clamp (total_seconds now (last_update old)) 0
                       (max_tick_gap cfg))
                  (total_active_time old)); [lia | done].
    + rewrite Z.ltb_irrefl, Z.add_0_r. done.
  - rewrite lookup_insert_eq. simpl.
    rewrite total_seconds_self.
    assert (Hc : clamp 0 0 (max_tick_gap cfg) = 0) by (unfold clamp; lia).
    rewrite Hc. simpl.
    destruct (is_active cfg q); simpl; by rewrite insert_insert_eq.
Qed.

Lemma update_read_total now q (st : Store.t) d :
  Store.read_total d (update cfg now q st).2
  = if decide (d = dt_date now)
    then Store.read_total d st + accrued cfg now q (Store.get_today now st).1
    else Store.read_total d st.
Proof.
  rewrite update_eq. simpl. unfold Store.read_total at 1.
  destruct (decide (d = dt_date now)) as [->|Hne].
  - rewrite lookup_insert_eq. simpl. by rewrite get_today_total.
  - rewrite lookup_insert_ne; [done | congruence].
Qed.

Lemma update_monotone now q (st : Store.t) d :
  Store.read_total d st <= Store.read_total d (update cfg now q st).2.
Proof.
  rewrite update_read_total. destruct (decide (d = dt_date now)); [| lia].
  pose proof (accrued_nonneg now q (Store.get_today now st).1). lia.
Qed.

Lemma update_keeps_rows now q (st : Store.t) d log :
  st !! d = Some log ->
  exists log', (update cfg now q st).2 !! d = Some log'
               /\ total_active_time log <= total_active_time log'.
Proof.
  intros H. rewrite update_eq. simpl.
  destruct (decide (d = dt_date now)) as [->|Hne].
  - rewrite lookup_insert_eq. eexists; split; [done |]. simpl.
    rewrite (get_today_present _ _ _ H). simpl.
    pose proof (accrued_nonneg now q log). lia.
  - rewrite lookup_insert_ne; [| congruence]. eexists; split; [done | lia].
Qed.

Lemma run_ticks_cons k ks (st : Store.t) :
  run_ticks cfg (k :: ks) st
  = (Store.Written :: (run_ticks cfg ks (tick cfg k st).2).1,
     (run_ticks cfg ks (tick cfg k st).2).2).
Proof.
  simpl. unfold tick. rewrite update_eq. simpl.
  by destruct (run_ticks cfg ks _).
Qed.

Lemma run_ticks_written ks (st : Store.t) :
  (run_ticks cfg ks st).1 = replicate (length ks) Store.Written.
Proof.
  revert st. induction ks as [|k ks IH]; intros st; [done |].
  rewrite run_ticks_cons. simpl. by rewrite IH.
Qed.

Lemma run_ticks_monotone ks (st : Store.t) d :
  Store.read_total d st <= Store.read_total d (run_ticks cfg ks st).2.
Proof.
  revert st. induction ks as [|k ks IH]; intros st; [simpl; lia |].
  rewrite run_ticks_cons. simpl.
  etrans; [| apply IH]. unfold tick. apply update_monotone.
Qed.

Lemma run_ticks_keeps_rows ks (st : Store.t) d log :
  st !! d = Some log ->
  exists log', (run_ticks cfg ks st).2 !! d = Some log'
               /\ total_active_time log <= total_active_time log'.
Proof.
  revert st log. induction ks as [|k ks IH]; intros st log H.
  - simpl. eexists; split; [done | lia].
  - rewrite run_ticks_cons. simpl.
    destruct (update_keeps_rows (tick_now k) (tick_idle k) st d log H)
      as (log1 & H1 & Hle1).
    destruct (IH _ _ H1) as (log2 & H2 & Hle2).
    exists log2. split; [done | lia].
Qed.

Lemma upsert_today_rejects (st : Store.t) d total upd old :
  st !! d = Some old ->
  total < total_active_time old ->
  Store.upsert_today d total upd st
  = (Store.Rejected (Store.DecreasingTotal (total_active_time old) total),
     st).
Proof.
  intros H Hlt. unfold Store.upsert_today. rewrite H.
  destruct (Z.ltb_spec total (total_active_time old)); [done | lia].
Qed.

End EngineFacts.

(** ** Monotonicity of the persisted total *)

(** C1. For every finite sequence of ticks, read at any two points of the
    sequence (after [ks1], and after [ks1] followed by [ks2]), the total
    persisted for a date [d] never decreases: every tick's write is
    applied, a row once present stays present with a total at least as
    large, and the total a read reports only grows. An [upsert_today]
    that would write a total below the stored one for that date signals
    [DecreasingTotal] to the caller and leaves the store as it was. This
    holds for ticks on any dates, in particular for ticks all on [d]. *)
Theorem total_active_time_never_decreases
    (cfg : AccrualEngine.Config) (st : Store.t)
    (ks1 ks2 : list AccrualEngine.Tick) (d : Z) :
  let st1 := (AccrualEngine.run_ticks cfg ks1 st).2 in
  let st2 := (AccrualEngine.run_ticks cfg ks2 st1).2 in
  (AccrualEngine.run_ticks cfg ks1 st).1
    = replicate (length ks1) Store.Written
  /\ (AccrualEngine.run_ticks cfg ks2 st1).1
    = replicate (length ks2) Store.Written
  /\ Store.read_total d st <= Store.read_total d st1
  /\ Store.read_total d st1 <= Store.read_total d st2
  /\ (forall log1, Store.get_log d st1 = Some log1 ->
      exists log2, Store.get_log d st2 = Some log2
                   /\ total_active_time log1 <= total_active_time log2)
  /\ (forall total upd old,
        st !! d = Some old ->
        total < total_active_time old ->
        Store.upsert_today d total upd st
        = (Store.Rejected
             (Store.DecreasingTotal (total_active_time old) total), st)).
Proof.
  intros st1 st2. repeat split.
  - apply run_ticks_written.
  - apply run_ticks_written.
  - apply run_ticks_monotone.
  - apply run_ticks_monotone.
  - intros log1 H1. unfold Store.get_log in *.
    by apply run_ticks_keeps_rows.
  - intros total upd old H Hlt. by apply upsert_today_rejects.
Qed.

(** Two ticks a minute apart on the sample store, then an idle one; a
    write of 100 seconds over the stored 3725 is rejected. *)
Lemma total_active_time_never_decreases_witness :
  Store.read_total 20000 Samples.st1 = 3725
  /\ Store.read_total 20000
       (AccrualEngine.run_ticks Samples.cfg
          [Samples.active_tick (Samples.at_time 9 16 0);
           Samples.active_tick (Samples.at_time 9 17 0)] Samples.st1).2
     = 3845
  /\ Store.upsert_today 20000 100 (Samples.at_time 9 16 0) Samples.st1
     = (Store.Rejected (Store.DecreasingTotal 3725 100), Samples.st1).
Proof.
  split; [reflexivity |]. split; [vm_compute; reflexivity |].
  destruct (total_active_time_never_decreases Samples.cfg Samples.st1
              [] [] 20000) as (_ & _ & _ & _ & _ & Hrej).
  apply (Hrej 100 (Samples.at_time 9 16 0)
           (Samples.row 3725 (Samples.at_time 9 15 0))).
  - reflexivity.
  - simpl. lia.
Defined.

(** ** Running programs *)

Section RunFacts.

Context {E : Type -> Type} {W : Type}.
Variable respond : forall X : Type, E X -> W -> X * W.

(** The first node of a sequenced program. *)
Lemma observe_seq {A B : Type} (t : itree E A) (k : A -> itree E B) :
  observe (ITree.bind t k)
  = match observe t with
    | RetF a => observe (k a)
    | TauF t' => TauF (ITree.bind t' k)
    | VisF e h => VisF e (fun x => ITree.bind (h x) k)
    end.
Proof.
  change (observe (ITree.bind t k))
    with (observe (match observe t with
                   | RetF a => k a
                   | TauF t' => Tau (ITree.bind t' k)
                   | VisF e h => Vis e (fun x => ITree.bind (h x) k)
                   end)).
  by destruct (observe t).
Qed.

Lemma run_ret {R : Type} (fuel : nat) (r : R) (w : W) :
  run respond (S fuel) (Ret r) w = Some (r, w, []).
Proof. reflexivity. Qed.

Lemma run_bind_ret {A R : Type} (fuel : nat) (a : A) (k : A -> itree E R)
    (w : W) :
  run respond fuel (ITree.bind (Ret a) k) w = run respond fuel (k a) w.
Proof. destruct fuel; reflexivity. Qed.

(** One call, then the rest of the program on its answer. *)
Lemma run_call {X R : Type} (fuel : nat) (e : E X) (k : X -> itree E R)
    (w : W) :
  run respond (S fuel) (ITree.bind (ITree.trigger e) k) w
  = match run respond fuel (k (respond X e w).1) (respond X e w).2 with
    | Some (r, w2, tr) => Some (r, w2, Call e (respond X e w).1 :: tr)
    | None => None
    end.
Proof.
  simpl. destruct (respond X e w) as [x w1]. simpl.
  by rewrite run_bind_ret.
Qed.

Lemma run_bind_assoc {A B R : Type} (fuel : nat) (t : itree E A)
    (k1 : A -> itree E B) (k2 : B -> itree E R) (w : W) :
  run respond fuel (ITree.bind (ITree.bind t k1) k2) w
  = run respond fuel (ITree.bind t (fun a => ITree.bind (k1 a) k2)) w.
Proof.
  revert t w. induction fuel as [|fuel IH]; intros t w; [done |].
  cbn [run].
  rewrite (observe_seq (ITree.bind t k1) k2), (observe_seq t k1),
    (observe_seq t (fun a => ITree.bind (k1 a) k2)).
  destruct (observe t) as [a | t' | X e h].
  - by rewrite (observe_seq (k1 a) k2).
  - apply IH.
  - destruct (respond X e w) as [x w1]. by rewrite IH.
Qed.

(** More fuel does not change a result. *)
Lemma run_mono {R : Type} (fuel fuel' : nat) (t : itree E R) (w : W) out :
  run respond fuel t w = Some out ->
  (fuel <= fuel')%nat ->
  run respond fuel' t w = Some out.
Proof.
  revert fuel' t w out.
  induction fuel as [|fuel IH]; intros fuel' t w out H Hle; [done |].
  destruct fuel' as [|fuel']; [lia |].
  cbn [run] in *.
  destruct (observe t) as [a | t' | X e h].
  - done.
  - eapply IH; [done | lia].
  - destruct (respond X e w) as [x w1].
    destruct (run respond fuel (h x) w1) as [[[r w2] tr]|] eqn:Hrun; [| done].
    rewrite (IH fuel' _ _ _ Hrun); [done | lia].
Qed.

End RunFacts.

(** Symbolic execution of a straight-line program: one call, one
    re-association or one case split at a time. *)
Ltac run_step :=
  match goal with
  | |- context [run _ (S _) (Ret _) _] => rewrite run_ret
  | |- context [run _ _ (ITree.bind (Ret _) _) _] => rewrite run_bind_ret
  | |- context [run _ _ (ITree.bind (ITree.bind _ _) _) _] =>
      rewrite run_bind_assoc
  | |- context [run ?rsp (S _) (ITree.bind (ITree.trigger ?e) _) ?w] =>
      rewrite run_call;
      let x := fresh "x" in
      let w' := fresh "w" in
      destruct (rsp _ e w) as [x w']; cbn [fst snd]
  | |- context [run _ _ (if negb ?b then _ else _) _] =>
      destruct b; cbn [negb]
  | |- context [run _ _ (ITree.bind (if ?b then _ else _) _) _] => destruct b
  | |- context [run _ _ (ITree.bind (match ?r with _ => _ end) _) _] =>
      destruct r
  | |- context [run _ _ (if ?b then _ else _) _] => destruct b
  | |- context [run _ _ (match ?r with _ => _ end) _] => destruct r
  end; cbv beta iota.

Ltac run_all := repeat run_step.

Section CliFacts.

Import Py Cli Publisher.

Context {W : Type}.
Variable respond : forall X : Type, cliE X -> W -> X * W.

Ltac run_cli :=
  unfold status, update, mqtt_start, mqtt_status, mqtt_publish,
    try_except, try_bind, print, sys_exit;
  run_all.

(** [status] ends within forty steps and never calls the tracker's
    update. *)
Lemma status_never_updates (w : W) :
  exists code w' tr,
    run respond 40 status w = Some (code, w', tr)
    /\ existsb is_update tr = false.
Proof.
  run_cli; eexists _, _, _; split; reflexivity.
Qed.



(** [update]: exit code and log as a function of what
    [tracker.update_time()] did. *)
Lemma update_exit_code (w : W) :
  exists code w' tr,
    run respond 10 update w = Some (code, w', tr)
    /\ match update_answer tr with
       | Some (Ok _) => code = 0 /\ logged tr = []
       | Some (Raise e) =>
           code = 1 /\ logged tr = ["Update error: " +:+ str_exn e]
       | None => False
       end.
Proof.
  run_cli; eexists _, _, _; split; try reflexivity; simpl; done.
Qed.

(** [mqtt_status] ends within ten steps, never touches the client, and
    reports whether the configuration loaded. *)
Lemma mqtt_status_run (w : W) :
  exists code w' tr,
    run respond 10 mqtt_status w = Some (code, w', tr)
    /\ client_log tr = []
    /\ existsb is_connect tr = false
    /\ match load_answer tr with
       | Some (Loaded config) =>
           code = 0
           /\ stdout tr
              = [ "MQTT Configuration:";
                  "  Broker: " +:+ broker_ip config +:+ ":"
                    +:+ str_int (port config);
                  "  Topic prefix: " +:+ topic_prefix config;
                  "  Update interval: "
                    +:+ str_int (update_interval config) +:+ "s";
                  "  QoS: " +:+ str_int (qos config);
                  nl +:+ "NOTE: Use 'worktracker mqtt start' to run the publisher." ]
       | Some (LoadFailed err) =>
           code = 1 /\ stdout tr = [report_load_error err]
       | None => False
       end.
Proof.
  run_cli; eexists _, _, _; (split; [reflexivity |]); simpl; done.
Qed.

(** [mqtt_publish] ends within twelve steps; what it does with the
    client and the code it returns. *)
Lemma mqtt_publish_run (w : W) :
  exists code w' tr,
    run respond 12 mqtt_publish w = Some (code, w', tr)
    /\ match load_answer tr with
       | Some (LoadFailed err) =>
           code = 1
           /\ client_log tr = []
           /\ existsb is_connect tr = false
           /\ stdout tr = [ "Publishing status to MQTT broker...";
                            report_load_error err ]
       | Some (Loaded config) =>
           (client_log tr = [Constructed config; Connected false]
            /\ code = 1)
           \/ (exists ok,
                 client_log tr
                 = [Constructed config; Connected true; Published ok;
                    Disconnected]
                 /\ code = if ok then 0 else 1)
       | None => False
       end.
Proof.
  run_cli; eexists _, _, _; (split; [reflexivity |]); simpl;
    try done; try (left; done); right; eexists; done.
Qed.

(** [mqtt_publish] with a configuration that fails to load. *)
Lemma mqtt_publish_load_failed (w : W) (err : load_error) :
  let w1 := (respond _ (Stdout "Publishing status to MQTT broker...") w).2 in
  (respond _ LoadConfig w1).1 = LoadFailed err ->
  exists w' tr,
    run respond 10 mqtt_publish w = Some (1, w', tr)
    /\ load_answer tr = Some (LoadFailed err)
    /\ client_log tr = []
    /\ existsb is_connect tr = false
    /\ stdout tr = [ "Publishing status to MQTT broker...";
                     report_load_error err ].
Proof.
  intros w1 Hload. unfold mqtt_publish, print.
  rewrite run_call. fold w1. rewrite run_call. rewrite Hload.
  run_all. eexists _, _; split; [reflexivity |]. simpl. done.
Qed.

(** [mqtt_start] with a configuration that fails to load. *)
Lemma mqtt_start_load_failed (w : W) (err : load_error) :
  let w1 := (respond _ (Stdout "Starting MQTT publisher...") w).2 in
  (respond _ LoadConfig w1).1 = LoadFailed err ->
  exists w' tr,
    run respond 10 mqtt_start w = Some (1, w', tr)
    /\ load_answer tr = Some (LoadFailed err)
    /\ client_log tr = []
    /\ existsb is_connect tr = false
    /\ stdout tr = [ "Starting MQTT publisher..."; report_load_error err ].
Proof.
  intros w1 Hload. unfold mqtt_start, print.
  rewrite run_call. fold w1. rewrite run_call. rewrite Hload.
  run_all. eexists _, _; split; [reflexivity |]. simpl. done.
Qed.

(** Whenever [mqtt_start] ends, a failed load means exit code one and
    an untouched client. *)
Lemma mqtt_start_no_connect (w : W) (fuel : nat) code w' tr :
  run respond fuel mqtt_start w = Some (code, w', tr) ->
  forall err,
    load_answer tr = Some (LoadFailed err) ->
    code = 1 /\ client_log tr = [] /\ existsb is_connect tr = false.
Proof.
  intros Hrun err Hload.
  destruct fuel as [|fuel]; [done |].
  unfold mqtt_start, print in Hrun. rewrite run_call in Hrun.
  destruct (respond _ (Stdout "Starting MQTT publisher...") w) as [x w1].
  cbn [fst snd] in Hrun.
  destruct fuel as [|fuel]; [done |].
  rewrite run_call in Hrun.
  destruct (respond _ LoadConfig w1) as [[config | err'] w2];
    cbn [fst snd] in Hrun.
  - destruct (run respond fuel _ w2) as [[[r w3] tr']|]; [| done].
    injection Hrun as <- <- <-. simpl in Hload. done.
  - destruct fuel as [|fuel]; [done |].
    rewrite run_call in Hrun.
    destruct (respond _ (Stdout (report_load_error err')) w2) as [y w3].
    cbn [fst snd] in Hrun.
    destruct fuel as [|fuel]; [done |].
    rewrite run_ret in Hrun. injection Hrun as <- <- <-. done.
Qed.

End CliFacts.

(** ** More on the engine: clamping, cadence, the read path *)

Section AccrualFacts.

Import AccrualEngine.

Variable cfg : Config.




Lemma status_present now q (st : Store.t) log :
  st !! dt_date now = Some log ->
  status cfg now q st
  = (mk_StatusSnapshot (label (is_active cfg q)) (total_active_time log)
       (last_update log), st).
Proof.
  intros H. unfold status. by rewrite (get_today_present _ _ _ H).
Qed.

Lemma status_keeps_rows now q (st : Store.t) d log :
  st !! d = Some log -> (status cfg now q st).2 !! d = Some log.
Proof.
  intros H. unfold status.
  pose proof (get_today_keeps now st d log H) as Hk.
  by destruct (Store.get_today now st).
Qed.

Lemma status_calls_present n now q (st : Store.t) log :
  st !! dt_date now = Some log ->
  status_calls cfg n now q st = (replicate n (total_active_time log), st).
Proof.
  intros H. induction n as [|n IH]; [done |].
  simpl. rewrite (status_present _ _ _ _ H). simpl. by rewrite IH.
Qed.

Lemma update_row_present now q (st : Store.t) :
  exists log, (update cfg now q st).2 !! dt_date now = Some log
              /\ total_active_time log
                 = Store.read_total (dt_date now) (update cfg now q st).2.
Proof.
  rewrite update_eq. simpl. unfold Store.read_total.
  rewrite lookup_insert_eq. eexists; split; done.
Qed.

End AccrualFacts.

(** ** The deployment *)

Section DeploymentFacts.

Import Py Cli Deployment.

Ltac dep_step :=
  match goal with
  | |- context [run _ (S _) (Ret _) _] => rewrite run_ret
  | |- context [run _ _ (ITree.bind (Ret _) _) _] => rewrite run_bind_ret
  | |- context [run _ _ (ITree.bind (ITree.bind _ _) _) _] =>
      rewrite run_bind_assoc
  | |- context [run _ (S _) (ITree.bind (ITree.trigger _) _) _] =>
      rewrite run_call;
      cbn [respond set_store set_rounds set_clock set_client fst snd engine
           store store_up clock idle timer_installed timer_running
           timer_enabled config_file broker_up publish_ok rounds client
           negb]
  end; cbv beta iota.

Ltac dep_run :=
  unfold status, Cli.update, mqtt_start, mqtt_status, mqtt_publish,
    try_except, try_bind, print, sys_exit;
  repeat dep_step.


(** On a deployment whose row of today exists, [status] changes
    nothing and prints that row. *)
Lemma deployment_status_present (w : world) log :
  store w !! dt_date (clock w) = Some log ->
  store_up w = true ->
  timer_installed w = true ->
  exists tr,
    run respond 40 status w = Some (0, w, tr)
    /\ today_log_answer tr = Some (Ok log)
    /\ existsb is_update tr = false
    /\ existsb raised tr = false.
Proof.
  intros Hrow Hup Hinst.
  destruct w as [eng st up clk idl ti tr te cf bu po rn cl].
  cbn [store clock store_up timer_installed] in *. subst up ti.
  dep_run. rewrite (status_present eng clk idl st log Hrow).
  cbn [fst snd AccrualEngine.status_label AccrualEngine.total_active_seconds].
  dep_run. rewrite (get_today_present clk st log Hrow).
  cbn [fst snd]. dep_run.
  eexists. split; [reflexivity |]. split; [reflexivity |].
  split; reflexivity.
Qed.

End DeploymentFacts.

(** ** Strings and the two-digit format *)

Section StringFacts.

Import Py.

Lemma append_nil_l (a : string) : EmptyString +:+ a = a.
Proof. reflexivity. Qed.

Lemma append_cons (x : Ascii.ascii) (a b : string) :
  String x a +:+ b = String x (a +:+ b).
Proof. reflexivity. Qed.

Lemma append_assoc (a b c : string) : (a +:+ b) +:+ c = a +:+ (b +:+ c).
Proof.
  induction a as [|x a IH]; [done |].
  rewrite !append_cons. by rewrite IH.
Qed.

Lemma append_nil_r (a : string) : a +:+ EmptyString = a.
Proof.
  induction a as [|x a IH]; [done |].
  rewrite append_cons. by rewrite IH.
Qed.

Lemma length_append (a b : string) :
  String.length (a +:+ b) = (String.length a + String.length b)%nat.
Proof.
  induction a as [|x a IH]; [done |].
  rewrite append_cons. simpl. by rewrite IH.
Qed.

(** A common suffix can be cancelled. *)
Lemma append_cancel_r (a b c : string) : a +:+ c = b +:+ c -> a = b.
Proof.
  revert b. induction a as [|x a IH]; intros [|y b] H.
  - done.
  - apply (f_equal String.length) in H.
    rewrite append_nil_l, append_cons in H. simpl in H.
    rewrite length_append in H. lia.
  - apply (f_equal String.length) in H.
    rewrite append_nil_l, append_cons in H. simpl in H.
    rewrite length_append in H. lia.
  - rewrite !append_cons in H. injection H as -> H. f_equal. by apply IH.
Qed.

Lemma contains_refl (s : string) : contains s s.
Proof.
  exists EmptyString, EmptyString.
  by rewrite append_nil_l, append_nil_r.
Qed.

Lemma contains_trans (a b c : string) :
  contains a b -> contains b c -> contains a c.
Proof.
  intros (p1 & q1 & ->) (p2 & q2 & ->).
  exists (p1 +:+ p2), (q2 +:+ q1). by rewrite !append_assoc.
Qed.

Lemma contains_append_l (a b c : string) : contains b c -> contains (a +:+ b) c.
Proof.
  intros (p & q & ->). exists (a +:+ p), q. by rewrite !append_assoc.
Qed.

Lemma contains_append_r (a b c : string) : contains a c -> contains (a +:+ b) c.
Proof.
  intros (p & q & ->). exists p, (q +:+ b). by rewrite !append_assoc.
Qed.





(** Below ten the fill is one zero. *)
Lemma format_02d_digit (n : Z) :
  0 <= n < 10 -> format_02d n = "0" +:+ pretty (Z.to_N n).
Proof.
  intros H.
  assert (Hall : forallb
            (fun k => String.eqb (format_02d (Z.of_nat k))
                        ("0" +:+ pretty (Z.to_N (Z.of_nat k))))
            (seq 0 10) = true) by (vm_compute; reflexivity).
  rewrite forallb_forall in Hall.
  specialize (Hall (Z.to_nat n)).
  rewrite Z2Nat.id in Hall by lia.
  apply String.eqb_eq, Hall, in_seq. lia.
Qed.


End StringFacts.

(** ** The Home Assistant export *)

Section HomeAssistantFacts.

Import Py HomeAssistant.

Lemma unlines_contains (l : string) (ls : list string) :
  In l ls -> contains (unlines ls) l.
Proof.
  induction ls as [|l' ls IH]; intros Hin; [done |].
  destruct Hin as [-> | Hin]; cbn [unlines].
  - apply contains_append_r, contains_refl.
  - apply contains_append_l, contains_append_l. by apply IH.
Qed.

Lemma state_topic_line_in (h : string) : In (state_topic_line h) (yaml_lines h).
Proof. unfold yaml_lines, state_topic_line. simpl. tauto. Qed.

Lemma unique_id_line_in (h : string) : In (unique_id_line h) (yaml_lines h).
Proof. unfold yaml_lines, unique_id_line. simpl. tauto. Qed.

Lemma yaml_contains_state_topic (h : string) :
  contains (yaml_config h) ("worktracker/" +:+ h +:+ "/status").
Proof.
  eapply contains_trans;
    [apply unlines_contains, state_topic_line_in |].
  unfold state_topic_line.
  exists ("      state_topic: " +:+ dq), dq.
  by rewrite !append_assoc.
Qed.

Lemma yaml_contains_unique_id (h : string) :
  contains (yaml_config h) ("worktracker_" +:+ h +:+ "_daily_time").
Proof.
  eapply contains_trans;
    [apply unlines_contains, unique_id_line_in |].
  unfold unique_id_line.
  exists ("      unique_id: " +:+ dq), dq.
  by rewrite !append_assoc.
Qed.

Context {W : Type}.
Variable respond : forall X : Type, socketE X -> W -> X * W.

(** With a host name given, nothing is asked of the environment. *)
Lemma generate_given (h : string) (fuel : nat) (w : W) :
  run respond (S fuel) (generate_yaml_config (Some h)) w
  = Some (yaml_config h, w, []).
Proof. reflexivity. Qed.

(** With none given, the host name is looked up once. *)
Lemma generate_lookup (fuel : nat) (w : W) :
  run respond (S (S fuel)) (generate_yaml_config None) w
  = Some (yaml_config (respond _ GetHostname w).1,
          (respond _ GetHostname w).2,
          [Call GetHostname (respond _ GetHostname w).1]).
Proof.
  unfold generate_yaml_config. rewrite run_call. by rewrite run_ret.
Qed.

End HomeAssistantFacts.

(** * The claims *)




(** C3, as stated, fails: on a date that has no row yet, [status]
    creates it. After the last write of day 20000 left a total of 3725,
    a query on the next day reports 0 and leaves a store that differs
    from the one it found; it also moves the baseline of the next tick,
    which credits 30 seconds after the query and none without it. The
    [status] command on a machine with an empty store leaves a row
    behind. *)
Lemma status_creates_row_counterexample :
  Store.read_total 20000 Samples.st1 = 3725
  /\ AccrualEngine.total_active_seconds Samples.asked.1 = 0
  /\ Samples.asked.2 <> Samples.st1
  /\ Store.read_total 20001
       (AccrualEngine.tick Samples.cfg Samples.first_tick Samples.st1).2 = 0
  /\ Store.read_total 20001
       (AccrualEngine.tick Samples.cfg Samples.first_tick Samples.asked.2).2
     = 30
  /\ exists w' tr,
       run Deployment.respond 40 Cli.status Samples.first_day
       = Some (0, w', tr)
       /\ Deployment.store Samples.first_day !! 20000 = None
       /\ Deployment.store w' !! 20000
          = Some (Store.fresh_row (Samples.at_time 9 16 0)).
Proof.
  split; [reflexivity |]. split; [reflexivity |].
  split; [| split; [| split]].
  - intros Heq. apply (f_equal (fun m : Store.t => m !! 20001)) in Heq.
    vm_compute in Heq. discriminate.
  - vm_compute. reflexivity.
  - vm_compute. reflexivity.
  - eexists _, _. split; [vm_compute; reflexivity |].
    split; vm_compute; reflexivity.
Qed.

(** C3, amended. The [status] command never calls the tracker's update
    (the only path to [upsert_today]); the engine's [status] keeps every
    existing row as it is. When today's row exists, [status] leaves the
    store unchanged and reports the stored total; so any number of
    [status] calls on the date of the last [update] return the total that
    [update] stored, each identical to the others, and the store stays
    what that [update] left. On a date with no row, [status] adds the
    zero-valued row of that date and nothing else. *)
Theorem status_is_read_only_on_existing_rows :
  (forall (W : Type) (respond : forall X : Type, Cli.cliE X -> W -> X * W)
          (w : W),
     exists code w' tr,
       run respond 40 Cli.status w = Some (code, w', tr)
       /\ existsb Cli.is_update tr = false)
  /\ (forall cfg now q (st : Store.t) d log,
        st !! d = Some log ->
        (AccrualEngine.status cfg now q st).2 !! d = Some log)
  /\ (forall cfg now q (st : Store.t) log,
        st !! dt_date now = Some log ->
        AccrualEngine.status cfg now q st
        = (AccrualEngine.mk_StatusSnapshot
             (AccrualEngine.label (AccrualEngine.is_active cfg q))
             (total_active_time log) (last_update log), st))
  /\ (forall cfg now_u q_u (st : Store.t) n now q,
        dt_date now = dt_date now_u ->
        let st1 := (AccrualEngine.update cfg now_u q_u st).2 in
        AccrualEngine.status_calls cfg n now q st1
        = (replicate n (Store.read_total (dt_date now_u) st1), st1))
  /\ (forall cfg now q (st : Store.t),
        st !! dt_date now = None ->
        (AccrualEngine.status cfg now q st).2
        = <[dt_date now := Store.fresh_row now]> st)
  /\ (forall (w : Deployment.world) log,
        Deployment.store w !! dt_date (Deployment.clock w) = Some log ->
        Deployment.store_up w = true ->
        Deployment.timer_installed w = true ->
        exists tr,
          run Deployment.respond 40 Cli.status w = Some (0, w, tr)
          /\ Cli.today_log_answer tr = Some (Py.Ok log)).
Proof.
  split; [| split; [| split; [| split; [| split]]]].
  - intros W respond w. apply status_never_updates.
  - intros cfg now q st d log. apply status_keeps_rows.
  - intros cfg now q st log. apply status_present.
  - intros cfg now_u q_u st n now q Hdate st1.
    destruct (update_row_present cfg now_u q_u st) as (log & Hrow & Htot).
    fold st1 in Hrow, Htot. rewrite <- Htot.
    apply status_calls_present. by rewrite Hdate.
  - intros cfg now q st Hnone. unfold AccrualEngine.status, Store.get_today.
    by rewrite Hnone.
  - intros w log Hrow Hup Hinst.
    destruct (deployment_status_present w log Hrow Hup Hinst)
      as (tr & Hrun & Hlog & _).
    by exists tr.
Qed.

(** On the sample store: three [status] calls after a tick all report
    3785, and the [status] command leaves the healthy machine as it
    was. *)
Lemma status_is_read_only_on_existing_rows_witness :
  AccrualEngine.status_calls Samples.cfg 3 (Samples.at_time 9 16 30)
    (AccrualEngine.Sample 600)
    (AccrualEngine.update Samples.cfg (Samples.at_time 9 16 0)
       (AccrualEngine.Sample 0) Samples.st1).2
  = ([3785; 3785; 3785],
     (AccrualEngine.update Samples.cfg (Samples.at_time 9 16 0)
        (AccrualEngine.Sample 0) Samples.st1).2)
  /\ exists tr,
       run Deployment.respond 40 Cli.status Samples.healthy
       = Some (0, Samples.healthy, tr).
Proof.
  destruct status_is_read_only_on_existing_rows
    as (_ & _ & _ & Hcalls & _ & Hdep).
  split.
  - apply (Hcalls Samples.cfg (Samples.at_time 9 16 0)
             (AccrualEngine.Sample 0) Samples.st1 3%nat
             (Samples.at_time 9 16 30) (AccrualEngine.Sample 600)).
    reflexivity.
  - destruct (Hdep Samples.healthy
                (Samples.row 3725 (Samples.at_time 9 15 0)))
      as (tr & Hrun & _); [reflexivity | reflexivity | reflexivity |].
    by exists tr.
Defined.

(** C4. The [update] command is a closed program: it takes no argument.
    In every environment it ends; it returns 0 with nothing logged at
    error level when [tracker.update_time()] returns, and returns 1 after
    logging ["Update error: "] followed by the cause when it raises. *)
Theorem update_command_exit_code
    (W : Type) (respond : forall X : Type, Cli.cliE X -> W -> X * W)
    (w : W) :
  exists code w' tr,
    run respond 10 Cli.update w = Some (code, w', tr)
    /\ match Cli.update_answer tr with
       | Some (Py.Ok _) => code = 0 /\ Cli.logged tr = []
       | Some (Py.Raise e) =>
           code = 1
           /\ Cli.logged tr = ["Update error: " +:+ Py.str_exn e]
       | None => False
       end.
Proof. apply update_exit_code. Qed.




(** C6. When [load_config()] fails (a missing file or an invalid value),
    [mqtt_start] and [mqtt_publish] each end, print their first line and
    the error report, and return 1, and the MQTT client is never
    constructed, started or connected; and whenever a run of either has a
    failed load in its trace, it returned 1 without touching the client.
    [mqtt_status] always ends without touching the client: it prints the
    configuration and returns 0, or prints the error report and
    returns 1. *)
Theorem config_errors_precede_connection
    (W : Type) (respond : forall X : Type, Cli.cliE X -> W -> X * W)
    (w : W) :
  (forall err,
     (respond _ Cli.LoadConfig
        (respond _ (Cli.Stdout "Starting MQTT publisher...") w).2).1
     = Cli.LoadFailed err ->
     exists w' tr,
       run respond 10 Cli.mqtt_start w = Some (1, w', tr)
       /\ Cli.load_answer tr = Some (Cli.LoadFailed err)
       /\ Cli.client_log tr = []
       /\ existsb Cli.is_connect tr = false
       /\ Cli.stdout tr = [ "Starting MQTT publisher...";
                            Cli.report_load_error err ])
  /\ (forall fuel code w' tr,
        run respond fuel Cli.mqtt_start w = Some (code, w', tr) ->
        forall err,
          Cli.load_answer tr = Some (Cli.LoadFailed err) ->
          code = 1 /\ Cli.client_log tr = []
          /\ existsb Cli.is_connect tr = false)
  /\ (forall err,
        (respond _ Cli.LoadConfig
           (respond _ (Cli.Stdout "Publishing status to MQTT broker...")
              w).2).1
        = Cli.LoadFailed err ->
        exists w' tr,
          run respond 10 Cli.mqtt_publish w = Some (1, w', tr)
          /\ Cli.load_answer tr = Some (Cli.LoadFailed err)
          /\ Cli.client_log tr = []
          /\ existsb Cli.is_connect tr = false
          /\ Cli.stdout tr = [ "Publishing status to MQTT broker...";
                               Cli.report_load_error err ])
  /\ (exists code w' tr,
        run respond 12 Cli.mqtt_publish w = Some (code, w', tr)
        /\ forall err,
             Cli.load_answer tr = Some (Cli.LoadFailed err) ->
             code = 1
             /\ Cli.client_log tr = []
             /\ existsb Cli.is_connect tr = false
             /\ Cli.stdout tr = [ "Publishing status to MQTT broker...";
                                  Cli.report_load_error err ])
  /\ (exists code w' tr,
        run respond 10 Cli.mqtt_status w = Some (code, w', tr)
        /\ Cli.client_log tr = []
        /\ existsb Cli.is_connect tr = false
        /\ match Cli.load_answer tr with
           | Some (Cli.Loaded config) =>
               code = 0
               /\ Cli.stdout tr
                  = [ "MQTT Configuration:";
                      "  Broker: " +:+ Publisher.broker_ip config +:+ ":"
                        +:+ Py.str_int (Publisher.port config);
                      "  Topic prefix: " +:+ Publisher.topic_prefix config;
                      "  Update interval: "
                        +:+ Py.str_int (Publisher.update_interval config)
                        +:+ "s";
                      "  QoS: " +:+ Py.str_int (Publisher.qos config);
                      Py.nl +:+ "NOTE: Use 'worktracker mqtt start' to run the publisher." ]
           | Some (Cli.LoadFailed err) =>
               code = 1 /\ Cli.stdout tr = [Cli.report_load_error err]
           | None => False
           end).
Proof.
  split; [| split; [| split; [| split]]].
  - intros err Hload. by apply mqtt_start_load_failed.
  - intros fuel code w' tr Hrun err Hload.
    by eapply mqtt_start_no_connect.
  - intros err Hload. by apply mqtt_publish_load_failed.
  - destruct (mqtt_publish_run respond w) as (code & w' & tr & Hrun & H).
    exists code, w', tr. split; [done |].
    intros err Hload. rewrite Hload in H. done.
  - apply mqtt_status_run.
Qed.

(** On the machine without a configuration file, [mqtt_start] and
    [mqtt_publish] print the report and return 1 without a client. *)
Lemma config_errors_precede_connection_witness :
  (exists w' tr,
     run Deployment.respond 10 Cli.mqtt_start Samples.no_config
     = Some (1, w', tr)
     /\ Cli.client_log tr = []
     /\ Cli.stdout tr = [ "Starting MQTT publisher...";
                          "ERROR: MQTT configuration file not found" ])
  /\ (exists w' tr,
        run Deployment.respond 10 Cli.mqtt_publish Samples.no_config
        = Some (1, w', tr)
        /\ Cli.client_log tr = []
        /\ Cli.stdout tr = [ "Publishing status to MQTT broker...";
                             "ERROR: MQTT configuration file not found" ]).
Proof.
  destruct (config_errors_precede_connection _ Deployment.respond
              Samples.no_config) as (Hstart & _ & Hpublish & _).
  split.
  - destruct (Hstart (Cli.FileNotFoundError
                        "MQTT configuration file not found"))
      as (w' & tr & Hrun & _ & Hlog & _ & Hout); [reflexivity |].
    exists w', tr. split; [done |]. split; done.
  - destruct (Hpublish (Cli.FileNotFoundError
                          "MQTT configuration file not found"))
      as (w' & tr & Hrun & _ & Hlog & _ & Hout); [reflexivity |].
    exists w', tr. split; [done |]. split; done.
Defined.

(** C7. [mqtt_publish] always ends. With a loaded configuration it
    constructs the client and connects; if the connection fails it
    returns 1 and does nothing more with the client; if it succeeds it
    publishes exactly once, then disconnects, and returns 0 when the
    publish succeeded and 1 when it failed. *)
Theorem mqtt_publish_sequence
    (W : Type) (respond : forall X : Type, Cli.cliE X -> W -> X * W)
    (w : W) :
  exists code w' tr,
    run respond 12 Cli.mqtt_publish w = Some (code, w', tr)
    /\ match Cli.load_answer tr with
       | Some (Cli.LoadFailed err) =>
           code = 1
           /\ Cli.client_log tr = []
           /\ existsb Cli.is_connect tr = false
           /\ Cli.stdout tr = [ "Publishing status to MQTT broker...";
                                Cli.report_load_error err ]
       | Some (Cli.Loaded config) =>
           (Cli.client_log tr
            = [Cli.Constructed config; Cli.Connected false]
            /\ code = 1)
           \/ (exists ok,
                 Cli.client_log tr
                 = [Cli.Constructed config; Cli.Connected true;
                    Cli.Published ok; Cli.Disconnected]
                 /\ code = if ok then 0 else 1)
       | None => False
       end.
Proof. apply mqtt_publish_run. Qed.

(** C8, as stated, fails for the Home Assistant configuration: with
    [topic_prefix] set to ["home"], the status message of host ["pc"] is
    published on ["home/pc/status"], while the generated configuration
    names ["worktracker/pc/status"] as its state topic. *)
Lemma state_topic_counterexample :
  Publisher.status_topic Samples.home_config "pc" = "home/pc/status"
  /\ run HomeAssistant.host_respond 2
       (HomeAssistant.generate_yaml_config (Some "pc")) "pc"
     = Some (HomeAssistant.yaml_config "pc", "pc", [])
  /\ HomeAssistant.yaml_field "state_topic" (HomeAssistant.yaml_config "pc")
     = Some "worktracker/pc/status"
  /\ HomeAssistant.yaml_field "state_topic" (HomeAssistant.yaml_config "pc")
     <> Some (Publisher.status_topic Samples.home_config "pc").
Proof.
  split; [reflexivity |]. split; [reflexivity |].
  split; [vm_compute; reflexivity |].
  vm_compute. discriminate.
Qed.

(** C8, amended. For every host identifier, the status message is
    published on the configured [topic_prefix], ["/"], the host
    identifier and ["/status"]. The generated Home Assistant
    configuration has the line [state_topic: "worktracker/<host>/status"]
    with the fixed prefix ["worktracker"], whatever is configured; that
    state topic is the published topic exactly when [topic_prefix] is
    ["worktracker"]. *)
Theorem status_topic_and_state_topic
    (config : Publisher.PublishConfig) (host : string) :
  Publisher.status_topic config host
  = Publisher.topic_prefix config +:+ "/" +:+ host +:+ "/status"
  /\ In (HomeAssistant.state_topic_line host) (HomeAssistant.yaml_lines host)
  /\ Py.contains (HomeAssistant.yaml_config host)
       ("state_topic: " +:+ Py.dq +:+ "worktracker/" +:+ host +:+ "/status"
        +:+ Py.dq)
  /\ (Publisher.status_topic config host
      = "worktracker/" +:+ host +:+ "/status"
      <-> Publisher.topic_prefix config = "worktracker").
Proof.
  split; [reflexivity |]. split; [apply state_topic_line_in |]. split.
  - eapply contains_trans;
      [apply unlines_contains, state_topic_line_in |].
    exists "      ", EmptyString. unfold HomeAssistant.state_topic_line.
    by rewrite !append_assoc, !append_nil_r.
  - unfold Publisher.status_topic. split.
    + intros H.
      change ("worktracker/" +:+ host +:+ "/status")
        with ("worktracker" +:+ "/" +:+ host +:+ "/status") in H.
      by apply append_cancel_r in H.
    + intros ->. reflexivity.
Qed.

(** With the default prefix the two topics agree. *)
Lemma status_topic_and_state_topic_witness :
  Publisher.status_topic Samples.default_config "pc"
  = "worktracker/" +:+ "pc" +:+ "/status".
Proof.
  destruct (status_topic_and_state_topic Samples.default_config "pc")
    as (_ & _ & _ & Hiff).
  apply Hiff. reflexivity.
Defined.



Example total_line_3725 :
  Cli.total_line (Samples.row 3725 (Samples.at_time 9 15 0))
  = "  Total active time: 01:02"
  /\ Cli.last_update_line (Samples.row 3725 (Samples.at_time 9 15 0))
     = "  Last update: 09:15".
Proof. split; vm_compute; reflexivity. Qed.

(** C10. For a given host name [h], [generate_yaml_config] asks nothing
    of its environment (the trace is empty and the environment is left
    as it was) and returns the same string in every environment and at
    every call; that string contains ["worktracker/" + h + "/status"],
    in its [state_topic] line, and ["worktracker_" + h + "_daily_time"],
    in its [unique_id] line. Without a host name it makes exactly one
    call, [socket.gethostname()], and uses its answer. *)
Theorem generate_yaml_config_deterministic
    (W : Type)
    (respond : forall X : Type, HomeAssistant.socketE X -> W -> X * W)
    (h : string) (w1 w2 : W) (fuel1 fuel2 : nat) :
  run respond (S fuel1) (HomeAssistant.generate_yaml_config (Some h)) w1
  = Some (HomeAssistant.yaml_config h, w1, [])
  /\ run respond (S fuel2) (HomeAssistant.generate_yaml_config (Some h)) w2
     = Some (HomeAssistant.yaml_config h, w2, [])
  /\ In (HomeAssistant.state_topic_line h) (HomeAssistant.yaml_lines h)
  /\ In (HomeAssistant.unique_id_line h) (HomeAssistant.yaml_lines h)
  /\ Py.contains (HomeAssistant.yaml_config h)
       ("worktracker/" +:+ h +:+ "/status")
  /\ Py.contains (HomeAssistant.yaml_config h)
       ("worktracker_" +:+ h +:+ "_daily_time")
  /\ run respond (S (S fuel1)) (HomeAssistant.generate_yaml_config None) w1
     = Some (HomeAssistant.yaml_config
               (respond _ HomeAssistant.GetHostname w1).1,
             (respond _ HomeAssistant.GetHostname w1).2,
             [Call HomeAssistant.GetHostname
                (respond _ HomeAssistant.GetHostname w1).1]).
Proof.
  split; [apply generate_given |]. split; [apply generate_given |].
  split; [apply state_topic_line_in |].
  split; [apply unique_id_line_in |].
  split; [apply yaml_contains_state_topic |].
  split; [apply yaml_contains_unique_id |].
  apply generate_lookup.
Qed.

(** * Further properties of the command-line layer *)

(** ** More on running programs *)

Section RunMore.

Context {E : Type -> Type} {W : Type}.
Variable respond : forall X : Type, E X -> W -> X * W.

Lemma run_tau {R : Type} (fuel : nat) (t : itree E R) (w : W) :
  run respond (S fuel) (Tau t) w = run respond fuel t w.
Proof. reflexivity. Qed.

(** One round of a loop. *)
Lemma run_iter {I R : Type} (fuel : nat) (body : I -> itree E (I + R))
    (i : I) (w : W) :
  run respond fuel (ITree.iter body i) w
  = run respond fuel
      (ITree.bind (body i)
         (fun lr => match lr with
                    | inl l => Tau (ITree.iter body l)
                    | inr r => Ret r
                    end)) w.
Proof. destruct fuel; reflexivity. Qed.

(** A run that starts with a call, read backwards. *)
Lemma run_call_inv {X R : Type} (fuel : nat) (e : E X)
    (k : X -> itree E R) (w : W) r w' tr :
  run respond fuel (ITree.bind (ITree.trigger e) k) w = Some (r, w', tr) ->
  exists fuel' tr',
    fuel = S fuel'
    /\ tr = Call e (respond X e w).1 :: tr'
    /\ run respond fuel' (k (respond X e w).1) (respond X e w).2
       = Some (r, w', tr').
Proof.
  destruct fuel as [|fuel]; [done |].
  rewrite run_call.
  destruct (run respond fuel _ _) as [[[r0 w0] tr0]|] eqn:Hrun; [| done].
  intros Heq. injection Heq as -> -> <-. by exists fuel, tr0.
Qed.

Lemma run_ret_inv {R : Type} (fuel : nat) (r0 : R) (w : W) r w' tr :
  run respond fuel (Ret r0) w = Some (r, w', tr) ->
  r = r0 /\ w' = w /\ tr = [].
Proof.
  destruct fuel as [|fuel]; [done |]. rewrite run_ret.
  intros Heq. by injection Heq as <- <- <-.
Qed.

End RunMore.

Section Translate.

Context {E F : Type -> Type} {W : Type}.
Variable h : forall X : Type, E X -> F X.
Variable respond : forall X : Type, F X -> W -> X * W.

Lemma observe_translate {R : Type} (t : itree E R) :
  observe (translate h t)
  = match observe t with
    | RetF r => RetF r
    | TauF t' => TauF (translate h t')
    | VisF e k => VisF (h _ e) (fun x => translate h (k x))
    end.
Proof.
  change (observe (translate h t))
    with (observe (translateF h (fun u => translate h u) (observe t))).
  by destruct (observe t).
Qed.

(** Running a renamed program is running the program against the
    environment seen through the renaming. *)
Lemma run_translate {R : Type} (fuel : nat) (t : itree E R) (w : W) :
  run respond fuel (translate h t) w
  = match run (fun X e => respond X (h X e)) fuel t w with
    | Some (r, w', tr) =>
        Some (r, w',
              map (fun c => match c with Call e x => Call (h _ e) x end) tr)
    | None => None
    end.
Proof.
  revert t w. induction fuel as [|fuel IH]; intros t w; [done |].
  cbn [run]. rewrite observe_translate.
  destruct (observe t) as [r | t' | X e k].
  - reflexivity.
  - apply IH.
  - destruct (respond X (h X e) w) as [x w1]. rewrite IH.
    by destruct (run _ fuel (k x) w1) as [[[r w2] tr]|].
Qed.

End Translate.

(** Symbolic execution for the remaining commands: as [run_step], and a
    negated answer is split on the answer itself. *)
Ltac app_step :=
  match goal with
  | |- context [run _ (S _) (Ret _) _] => rewrite run_ret
  | |- context [run _ _ (ITree.bind (Ret _) _) _] => rewrite run_bind_ret
  | |- context [run _ _ (ITree.bind (ITree.bind _ _) _) _] =>
      rewrite run_bind_assoc
  | |- context [run ?rsp (S _) (ITree.bind (ITree.trigger ?e) _) ?w] =>
      rewrite run_call;
      let x := fresh "x" in
      let w' := fresh "w" in
      destruct (rsp _ e w) as [x w']; cbn [fst snd]
  | |- context [run _ _ (if negb ?b then _ else _) _] =>
      destruct b; cbn [negb]
  | |- context [run _ _ (ITree.bind (if negb ?b then _ else _) _) _] =>
      destruct b; cbn [negb]
  | |- context [run _ _ (ITree.bind (if ?b then _ else _) _) _] => destruct b
  | |- context [run _ _ (ITree.bind (match ?r with _ => _ end) _) _] =>
      destruct r
  | |- context [run _ _ (if ?b then _ else _) _] => destruct b
  | |- context [run _ _ (match ?r with _ => _ end) _] => destruct r
  end; cbv beta iota.

Section CommandFacts.

Import Py Cli Commands.

Context {W : Type}.
Variable respond : forall X : Type, appE X -> W -> X * W.

Ltac run_app :=
  unfold install, stop, start, uninstall, mqtt_stop, try_catch, try_then,
    say, cli, svc;
  repeat app_step.

(** X1. [install] always ends, in one of three ways. It returns 0 when
    the database was opened, connected and closed and the timer was
    installed, enabled and started; whether the daemon reloaded and
    whether the configuration file could be created does not matter. It
    returns 1 when the timer could not be installed, enabled or started,
    and stops at the first of these that fails. It returns 1 when a step
    of the database initialisation raised: the steps after it are
    skipped, the error is the last line printed, and neither the
    configuration file nor the timer is touched. *)
Lemma install_outcome (w : W) :
  exists code w' tr,
    run respond 30 install w = Some (code, w', tr)
    /\ ((code = 0
         /\ db_log tr = [Opened true; Connected_db true; Closed true]
         /\ exists r made,
              timer_log tr
              = [Install true; Reload r; Enable true; Start true]
              /\ config_log tr = [made])
        \/ (code = 1
            /\ db_log tr = [Opened true; Connected_db true; Closed true]
            /\ exists made,
                 config_log tr = [made]
                 /\ (timer_log tr = [Install false]
                     \/ (exists r,
                           timer_log tr
                           = [Install true; Reload r; Enable false])
                     \/ (exists r,
                           timer_log tr
                           = [Install true; Reload r; Enable true;
                              Start false])))
        \/ (code = 1
            /\ timer_log tr = []
            /\ config_log tr = []
            /\ (db_log tr = [Opened false]
                \/ db_log tr = [Opened true; Connected_db false]
                \/ db_log tr
                   = [Opened true; Connected_db true; Closed false])
            /\ exists e,
                 last (stdout (cli_calls tr))
                 = Some ("ERROR: Failed to initialize database: "
                         +:+ str_exn e))).
Proof.
  run_app; eexists _, _, _; (split; [reflexivity |]); simpl.
  all: first
    [ left; (split; [reflexivity |]); (split; [reflexivity |]);
      eexists _, _; split; reflexivity
    | right; left; (split; [reflexivity |]); (split; [reflexivity |]);
      eexists; (split; [reflexivity |]);
      first [ left; reflexivity
            | right; left; eexists; reflexivity
            | right; right; eexists; reflexivity ]
    | right; right; (split; [reflexivity |]); (split; [reflexivity |]);
      (split; [reflexivity |]);
      split;
      [ first [ left; reflexivity
              | right; left; reflexivity
              | right; right; reflexivity ]
      | eexists; reflexivity ] ].
Qed.

(** X2. [stop] always ends. When the timer is not installed it returns 1
    and asks nothing of the timer. Otherwise it stops the timer and
    returns 1 if that fails; if it succeeds it disables the timer and
    returns 0 whether or not disabling worked. *)
Lemma stop_run (w : W) :
  exists code w' tr,
    run respond 12 stop w = Some (code, w', tr)
    /\ match installed_answer (cli_calls tr) with
       | Some false => timer_log tr = [] /\ code = 1
       | Some true =>
           (timer_log tr = [Stop false] /\ code = 1)
           \/ (exists d, timer_log tr = [Stop true; Disable d] /\ code = 0)
       | None => False
       end.
Proof.
  run_app; eexists _, _, _; (split; [reflexivity |]); simpl.
  all: first [ done | left; done | right; eexists; done ].
Qed.

(** X3. [start] always ends. When the timer is not installed it returns
    1 and asks nothing of the timer. Otherwise it starts the timer and
    returns 1, without asking whether it is enabled, if that fails. Once
    started it returns 0: it enables the timer only when the timer was
    not enabled already, and a failure to enable it does not change the
    exit code. *)
Lemma start_run (w : W) :
  exists code w' tr,
    run respond 12 start w = Some (code, w', tr)
    /\ match installed_answer (cli_calls tr) with
       | Some false => timer_log tr = [] /\ code = 1
       | Some true =>
           (timer_log tr = [Start false] /\ code = 1
            /\ enabled_answer (cli_calls tr) = None)
           \/ (code = 0
               /\ match enabled_answer (cli_calls tr) with
                  | Some true => timer_log tr = [Start true]
                  | Some false =>
                      exists ok, timer_log tr = [Start true; Enable ok]
                  | None => False
                  end)
       | None => False
       end.
Proof.
  run_app; eexists _, _, _; (split; [reflexivity |]); simpl.
  all: first [ done | left; done | right; split; [done |]; simpl;
               first [ done | eexists; done ] ].
Qed.

(** X4. [uninstall] always ends. When the timer is not installed it
    returns 0 and, apart from printing, makes no call but that check.
    Otherwise it stops the timer only if it is running and disables it
    only if it is enabled; failures of these do not stop it. It then
    removes the timer file: if that fails it returns 1 without reloading
    the daemon, otherwise it reloads the daemon and returns 0 whatever
    the reload answers. *)
Lemma uninstall_run (w : W) :
  exists code w' tr,
    run respond 24 uninstall w = Some (code, w', tr)
    /\ match installed_answer (cli_calls tr) with
       | Some false =>
           code = 0
           /\ beyond_print tr = [Call (inl1 IsTimerInstalled) false]
       | Some true =>
           exists running enabled s d,
             running_answer (cli_calls tr) = Some running
             /\ enabled_answer (cli_calls tr) = Some enabled
             /\ let before :=
                  (if running then [Stop s] else [])
                  ++ (if enabled then [Disable d] else []) in
                (timer_log tr = before ++ [Uninstall false] /\ code = 1)
                \/ (exists r,
                      timer_log tr = before ++ [Uninstall true; Reload r]
                      /\ code = 0)
       | None => False
       end.
Proof.
  run_app; eexists _, _, _; (split; [reflexivity |]); simpl.
  all: try done.
  all: eexists _, _, _, _; split; [reflexivity |];
    split; [reflexivity |]; simpl;
    first [ left; split; reflexivity
          | right; eexists; split; reflexivity ].
  Unshelve. all: exact true.
Qed.

(** X5. [stop], [start], [uninstall] and [mqtt_stop] never reach for the
    store or the database file, never create or load the configuration,
    and never use the MQTT client; in particular [mqtt_stop] does not
    call [client.stop()]. *)
Lemma timer_commands_hands_off (w : W) :
  (exists code w' tr,
     run respond 12 stop w = Some (code, w', tr) /\ hands_off tr)
  /\ (exists code w' tr,
        run respond 12 start w = Some (code, w', tr) /\ hands_off tr)
  /\ (exists code w' tr,
        run respond 24 uninstall w = Some (code, w', tr) /\ hands_off tr)
  /\ (exists code w' tr,
        run respond 4 mqtt_stop w = Some (code, w', tr) /\ hands_off tr).
Proof.
  unfold hands_off. repeat split.
  all: run_app; eexists _, _, _; (split; [reflexivity |]);
    repeat split; reflexivity.
Qed.

End CommandFacts.

Section StatusMore.

Import Py Cli Commands.

Context {W : Type}.
Variable respond : forall X : Type, cliE X -> W -> X * W.

(** X6. [status] opens the database only after the live status was
    read, and closes it only after today's row was read: when
    [get_today_log()] raises, [close()] is not called and the exit code
    is 1; when no row was asked for, the database was not opened or
    could not be, and the exit code is 1. *)
Lemma status_database_steps (w : W) :
  exists code w' tr,
    run respond 40 status w = Some (code, w', tr)
    /\ match today_log_answer tr with
       | Some (Raise _) => db_log_cli tr = [Opened true] /\ code = 1
       | Some (Ok _) => exists ok, db_log_cli tr = [Opened true; Closed ok]
       | None =>
           (db_log_cli tr = [] \/ db_log_cli tr = [Opened false])
           /\ code = 1
       end.
Proof.
  unfold status, try_except, try_bind, print. run_all.
  all: eexists _, _, _; (split; [reflexivity |]); simpl.
  all: first [ eexists; reflexivity | split; [| reflexivity]; tauto
             | split; reflexivity ].
Qed.

(** X7. When the timer is installed, the first four lines [status]
    prints are the timer status with the answers it got, the enabled
    flag before the running flag, whatever happens afterwards. *)
Lemma status_timer_lines (w : W) :
  exists code w' tr,
    run respond 40 status w = Some (code, w', tr)
    /\ match installed_answer tr with
       | Some true =>
           exists enabled running rest,
             enabled_answer tr = Some enabled
             /\ running_answer tr = Some running
             /\ stdout tr
                = [ "Timer status:"; "  Installed: Yes";
                    "  Enabled: " +:+ yes_no enabled;
                    "  Running: " +:+ yes_no running ] ++ rest
       | Some false => stdout tr
                       = [ "Timer status: Not installed";
                           nl +:+ "Run 'worktracker install' to set up tracking." ]
       | None => False
       end.
Proof.
  unfold status, try_except, try_bind, print. run_all.
  all: eexists _, _, _; (split; [reflexivity |]); simpl.
  all: first [ reflexivity
             | eexists _, _, _; split; [reflexivity |]; split; reflexivity ].
Qed.

End StatusMore.

(** ** The publisher loop of [mqtt_start] *)

Section LoopFacts.

Import Py Cli Commands.

Context {W : Type}.
Variable respond : forall X : Type, cliE X -> W -> X * W.

(** Reading a run backwards, one call at a time: the fuel left, the
    rest of the trace, the answer and the environment after the call. *)
Ltac inv_call H f t x w' :=
  apply run_call_inv in H as (f & t & -> & -> & H);
  match type of H with
  | context [respond ?X ?e ?w] =>
      destruct (respond X e w) as [x w']; cbn [fst snd] in H |- *
  end.

(** Every run of the loop that ends returns 0. Either the client stopped
    running: then every sleep ended normally and [client.stop()] was not
    called. Or the last sleep was interrupted: then [client.stop()] was
    called once, followed by [sys.exit(0)]. *)
Lemma keep_running_ends (fuel : nat) :
  forall (w : W) code w' tr,
    run respond fuel (ITree.iter keep_running tt) w = Some (code, w', tr) ->
    code = 0
    /\ handlers tr = []
    /\ load_answer tr = None
    /\ exists n,
         (client_log tr = replicate n (Polled true) ++ [Polled false]
          /\ sleeps tr = replicate n Slept
          /\ exits tr = [])
         \/ (client_log tr = replicate (S n) (Polled true) ++ [Stopped]
             /\ sleeps tr = replicate n Slept ++ [Interrupted]
             /\ exits tr = [0]).
Proof.
  induction fuel as [fuel IH] using lt_wf_ind.
  intros w code w' tr H.
  rewrite run_iter in H. unfold keep_running in H. cbv beta in H.
  rewrite run_bind_assoc in H. inv_call H f1 t1 running w1.
  destruct running; cbv beta iota in H.
  - rewrite run_bind_assoc in H. inv_call H f2 t2 s w2.
    destruct s; cbv beta iota in H.
    + rewrite run_bind_ret in H. cbv beta iota in H.
      destruct f2 as [|f3]; [done |]. rewrite run_tau in H.
      apply IH in H; [| lia].
      destruct H as (-> & Hh & Hl & n & Hshape).
      split; [done |]. split; [done |]. split; [done |].
      exists (S n). simpl.
      destruct Hshape as [(Hc & Hs & He) | (Hc & Hs & He)];
        [left | right]; rewrite Hc, Hs, He; done.
    + unfold signal_handler, sys_exit, print in H.
      rewrite !run_bind_assoc in H. inv_call H f3 t3 u3 w3.
      rewrite !run_bind_assoc in H. inv_call H f4 t4 u4 w4.
      rewrite !run_bind_assoc in H. inv_call H f5 t5 u5 w5.
      rewrite !run_bind_ret in H. cbv beta iota in H.
      apply run_ret_inv in H as (-> & -> & ->).
      split; [done |]. split; [done |]. split; [done |].
      exists 0%nat. right. done.
  - rewrite run_bind_ret in H. cbv beta iota in H.
    apply run_ret_inv in H as (-> & -> & ->).
    split; [done |]. split; [done |]. split; [done |].
    exists 0%nat. left. done.
Qed.

(** X8. Every run of [mqtt_start] that ends, whatever the environment
    answers. With a configuration that fails to load it returns 1 and
    never builds the client. When [client.start()] fails it returns 1
    and neither registers a signal handler nor sleeps. Otherwise it
    registers the handlers for SIGINT and SIGTERM, in that order, and
    returns 0 in one of two ways: the client stopped running, every
    sleep ended normally and [client.stop()] was never called; or the
    last sleep was interrupted, [client.stop()] was called once, after
    the last poll, and [sys.exit(0)] followed. *)
Lemma mqtt_start_ends (fuel : nat) (w : W) code w' tr :
  run respond fuel mqtt_start w = Some (code, w', tr) ->
  match load_answer tr with
  | Some (LoadFailed _) => code = 1 /\ client_log tr = []
  | Some (Loaded config) =>
      (code = 1
       /\ client_log tr = [Constructed config; Started false]
       /\ handlers tr = [] /\ sleeps tr = [] /\ exits tr = [])
      \/ (code = 0
          /\ handlers tr = [SIGINT; SIGTERM]
          /\ exists n,
               (client_log tr
                = Constructed config :: Started true
                  :: replicate n (Polled true) ++ [Polled false]
                /\ sleeps tr = replicate n Slept
                /\ exits tr = [])
               \/ (client_log tr
                   = Constructed config :: Started true
                     :: replicate (S n) (Polled true) ++ [Stopped]
                   /\ sleeps tr = replicate n Slept ++ [Interrupted]
                   /\ exits tr = [0]))
  | None => False
  end.
Proof.
  intros H. unfold mqtt_start, print in H.
  inv_call H f1 t1 u1 w1. inv_call H f2 t2 answer w2.
  destruct answer as [config | err]; cbv beta iota in H.
  - inv_call H f3 t3 u3 w3. inv_call H f4 t4 u4 w4.
    inv_call H f5 t5 started w5.
    destruct started; cbn [negb] in H; cbv beta iota in H.
    + inv_call H f6 t6 u6 w6. inv_call H f7 t7 u7 w7.
      inv_call H f8 t8 u8 w8. inv_call H f9 t9 u9 w9.
      apply keep_running_ends in H.
      destruct H as (-> & Hh & Hl & n & Hshape).
      simpl. rewrite Hh. right. split; [done |]. split; [done |].
      exists n.
      destruct Hshape as [(Hc & Hs & He) | (Hc & Hs & He)];
        [left | right]; rewrite Hc, Hs, He; done.
    + inv_call H f6 t6 u6 w6.
      apply run_ret_inv in H as (-> & -> & ->).
      simpl. left. done.
  - inv_call H f3 t3 u3 w3. apply run_ret_inv in H as (-> & -> & ->). done.
Qed.

End LoopFacts.

Section LoopOnDeployment.

Import Py Cli Commands Deployment.





End LoopOnDeployment.

(** The healthy machine, whose client runs two rounds. *)
Lemma mqtt_start_ends_witness :
  exists code w' tr,
    run Deployment.respond 17 Cli.mqtt_start Samples.healthy
    = Some (code, w', tr)
    /\ match Cli.load_answer tr with
       | Some (Cli.LoadFailed _) => code = 1 /\ Cli.client_log tr = []
       | Some (Cli.Loaded _) => code = 0 \/ code = 1
       | None => False
       end.
Proof.
  destruct (run Deployment.respond 17 Cli.mqtt_start Samples.healthy)
    as [[[code w'] tr]|] eqn:Hrun; [| vm_compute in Hrun; discriminate].
  exists code, w', tr. split; [reflexivity |].
  pose proof (mqtt_start_ends Deployment.respond 17 Samples.healthy
                code w' tr Hrun) as H.
  destruct (Cli.load_answer tr) as [[config | err]|]; [| exact H | exact H].
  destruct H as [(Hcode & _) | (Hcode & _)]; [right | left]; exact Hcode.
Defined.


(** On the first day, when nothing is persisted yet, the status query
    of [publish_status()] creates today's row. *)
Example publish_creates_row :
  exists w' tr,
    run Deployment.respond 12 Cli.mqtt_publish Samples.first_day
    = Some (0, w', tr)
    /\ Deployment.store Samples.first_day !! 20000 = None
    /\ Deployment.store w' !! 20000
       = Some (Store.fresh_row (Samples.at_time 9 16 0)).
Proof.
  eexists _, _. split; [vm_compute; reflexivity |].
  split; vm_compute; reflexivity.
Qed.

(** So does the publish loop when it first wakes, a minute after
    [mqtt_start] started it; [mqtt_start] itself makes no call to the
    store. *)
Example publish_loop_creates_row :
  exists w' tr,
    run Deployment.respond 194 Cli.mqtt_start Samples.long_run
    = Some (0, w', tr)
    /\ existsb Cli.is_store_call tr = false
    /\ Deployment.store Samples.long_run !! 20000 = None
    /\ Deployment.store w' !! 20000
       = Some (Store.fresh_row (Samples.at_time 9 17 0)).
Proof.
  eexists _, _. split; [vm_compute; reflexivity |].
  split; [vm_compute; reflexivity |].
  split; vm_compute; reflexivity.
Qed.

(** ** [main] *)

Section MainFacts.

Import Py Cli Commands.

Context {W : Type}.
Variable respond : forall X : Type, appE X -> W -> X * W.

Lemma cli_calls_inject (tr : trace) : cli_calls (inject tr) = tr.
Proof.
  induction tr as [|[X e x] tr IH]; [done |]. simpl. by rewrite IH.
Qed.

Lemma timer_log_inject (tr : trace) : timer_log (inject tr) = [].
Proof. induction tr as [|[X e x] tr IH]; [done |]. simpl. by rewrite IH. Qed.

Lemma run_method (fuel : nat) (m : itree cliE Z) (w : W) :
  run respond fuel (method m) w = lifted (run (cli_side respond) fuel m w).
Proof.
  unfold method. rewrite run_translate. unfold lifted, inject, cli_side.
  reflexivity.
Qed.

(** X10. Called without a command, [main] prints the top-level help and
    returns 1 before it builds the service manager. Called with [mqtt]
    and no MQTT command, it builds the service manager, prints the help
    of the MQTT parser and returns 1. In both cases nothing else is
    called. *)
Lemma main_help (w : W) :
  let args := (respond _ (inr1 ParseArgs) w).1 in
  (command args = None ->
   exists w' tr,
     run respond 3 main w = Some (1, w', tr)
     /\ tr = [Call (inr1 ParseArgs) args;
              Call (inr1 (PrintHelp TopParser)) tt])
  /\ (command args = Some "mqtt" ->
      mqtt_command args = None ->
      exists w' tr,
        run respond 4 main w = Some (1, w', tr)
        /\ tr = [Call (inr1 ParseArgs) args;
                 Call (inr1 NewServiceManager) tt;
                 Call (inr1 (PrintHelp MqttParser)) tt]).
Proof.
  intros args. subst args. unfold main, svc.
  rewrite !run_call.
  destruct (respond _ (inr1 ParseArgs) w) as [args w1]. cbn [fst snd].
  split.
  - intros Hcmd. rewrite Hcmd. cbn [falsy].
    rewrite run_call.
    destruct (respond _ (inr1 (PrintHelp TopParser)) w1) as [[] w2].
    cbn [fst snd]. rewrite run_ret.
    eexists _, _. split; reflexivity.
  - intros Hcmd Hsub. rewrite Hcmd. cbn [falsy].
    rewrite run_call.
    destruct (respond _ (inr1 NewServiceManager) w1) as [[] w2].
    cbn [fst snd].
    change (is_command (Some "mqtt") "install") with false.
    change (is_command (Some "mqtt") "stop") with false.
    change (is_command (Some "mqtt") "start") with false.
    change (is_command (Some "mqtt") "uninstall") with false.
    change (is_command (Some "mqtt") "status") with false.
    change (is_command (Some "mqtt") "update") with false.
    change (is_command (Some "mqtt") "mqtt") with true.
    cbv beta iota. unfold main_mqtt, svc. rewrite Hsub. cbn [falsy].
    rewrite run_call.
    destruct (respond _ (inr1 (PrintHelp MqttParser)) w2) as [[] w3].
    cbn [fst snd]. rewrite run_ret.
    eexists _, _. split; reflexivity.
Qed.

(** With a command it knows, [main] builds the service manager and runs
    that command's method, whose result it returns. *)
Lemma main_runs_method (w : W) (fuel : nat) :
  let args := (respond _ (inr1 ParseArgs) w).1 in
  let w1 := (respond _ (inr1 ParseArgs) w).2 in
  let w2 := (respond _ (inr1 NewServiceManager) w1).2 in
  let pre := [Call (inr1 ParseArgs) args; Call (inr1 NewServiceManager) tt] in
  let top name m :=
    command args = Some name ->
    run respond (S (S fuel)) main w = after pre (run respond fuel m w2) in
  let sub name m :=
    command args = Some "mqtt" ->
    mqtt_command args = Some name ->
    run respond (S (S fuel)) main w = after pre (run respond fuel m w2) in
  top "install" install
  /\ top "stop" stop
  /\ top "start" start
  /\ top "uninstall" uninstall
  /\ top "status" (method status)
  /\ top "update" (method update)
  /\ sub "start" (method mqtt_start)
  /\ sub "stop" mqtt_stop
  /\ sub "status" (method mqtt_status)
  /\ sub "publish" (method mqtt_publish).
Proof.
  intros args w1 w2 pre top sub. subst top sub pre w2 w1 args.
  unfold main, svc. rewrite !run_call.
  destruct (respond _ (inr1 ParseArgs) w) as [args w1]. cbn [fst snd].
  repeat split; intros Hcmd; rewrite Hcmd; cbn [falsy];
    rewrite run_call;
    destruct (respond _ (inr1 NewServiceManager) w1) as [[] w2];
    cbn [fst snd].
  1-6: simpl (is_command _ _); cbv beta iota;
    match goal with
    | |- context [run respond ?f ?m ?v] =>
        by destruct (run respond f m v) as [[[r w3] tr]|]
    end.
  all: intros Hsub; simpl (is_command _ _); cbv beta iota;
    unfold main_mqtt; rewrite Hsub; cbn [falsy];
    simpl (is_command _ _); cbv beta iota;
    match goal with
    | |- context [run respond ?f ?m ?v] =>
        by destruct (run respond f m v) as [[[r w3] tr]|]
    end.
Qed.

(** X12. [worktracker update], end to end: [main] ends within twelve
    steps; its exit code is 0 with nothing logged at error level when
    [tracker.update_time()] returns, and 1 with the cause logged when it
    raises; the timer is never touched. *)
Lemma main_update (w : W) :
  command (respond _ (inr1 ParseArgs) w).1 = Some "update" ->
  exists code w' tr,
    run respond 12 main w = Some (code, w', tr)
    /\ timer_log tr = []
    /\ match update_answer (cli_calls tr) with
       | Some (Ok _) => code = 0 /\ logged (cli_calls tr) = []
       | Some (Raise e) =>
           code = 1
           /\ logged (cli_calls tr) = ["Update error: " +:+ str_exn e]
       | None => False
       end.
Proof.
  intros Hcmd.
  destruct (main_runs_method w 10) as (_ & _ & _ & _ & _ & Hupd & _).
  rewrite (Hupd Hcmd). rewrite run_method.
  destruct (update_exit_code (cli_side respond)
              (respond _ (inr1 NewServiceManager)
                 (respond _ (inr1 ParseArgs) w).2).2)
    as (code & w' & tr & Hrun & Hans).
  rewrite Hrun. simpl.
  eexists _, _, _. split; [reflexivity |].
  simpl. rewrite cli_calls_inject, timer_log_inject. done.
Qed.

(** X11. With a command it knows, [main] parses the arguments, builds
    the service manager and then runs exactly the method of that
    command, whose calls and exit code are its own: [install], [stop],
    [start], [uninstall], [status] and [update] at the top level, and
    below [mqtt] the four MQTT commands. *)
Lemma main_dispatch (w : W) (fuel : nat) :
  let args := (respond _ (inr1 ParseArgs) w).1 in
  let w1 := (respond _ (inr1 ParseArgs) w).2 in
  let w2 := (respond _ (inr1 NewServiceManager) w1).2 in
  let pre := [Call (inr1 ParseArgs) args; Call (inr1 NewServiceManager) tt] in
  let top name m :=
    command args = Some name ->
    run respond (S (S fuel)) main w = after pre (run respond fuel m w2) in
  let sub name m :=
    command args = Some "mqtt" ->
    mqtt_command args = Some name ->
    run respond (S (S fuel)) main w = after pre (run respond fuel m w2) in
  top "install" install
  /\ top "stop" stop
  /\ top "start" start
  /\ top "uninstall" uninstall
  /\ top "status" (method status)
  /\ top "update" (method update)
  /\ sub "start" (method mqtt_start)
  /\ sub "stop" mqtt_stop
  /\ sub "status" (method mqtt_status)
  /\ sub "publish" (method mqtt_publish).
Proof. apply main_runs_method. Qed.

End MainFacts.

(** [worktracker] alone prints the top-level help, [worktracker mqtt]
    the help of the MQTT parser; both return 1. *)
Lemma main_help_witness :
  (exists w' tr,
     run Commands.host_respond 3 Commands.main
       (Commands.healthy_host (Commands.mk_Namespace None None))
     = Some (1, w', tr)
     /\ Commands.help_log tr = [Commands.TopParser])
  /\ (exists w' tr,
        run Commands.host_respond 4 Commands.main
          (Commands.healthy_host (Commands.mk_Namespace (Some "mqtt") None))
        = Some (1, w', tr)
        /\ Commands.help_log tr = [Commands.MqttParser]).
Proof.
  split.
  - destruct (main_help Commands.host_respond
                (Commands.healthy_host (Commands.mk_Namespace None None)))
      as (Hnone & _).
    destruct Hnone as (w' & tr & Hrun & Htr); [reflexivity |].
    exists w', tr. split; [exact Hrun |].
    rewrite Htr. reflexivity.
  - destruct (main_help Commands.host_respond
                (Commands.healthy_host
                   (Commands.mk_Namespace (Some "mqtt") None)))
      as (_ & Hmqtt).
    destruct Hmqtt as (w' & tr & Hrun & Htr); [reflexivity | reflexivity |].
    exists w', tr. split; [exact Hrun |].
    rewrite Htr. reflexivity.
Defined.

(** [worktracker mqtt publish] runs [mqtt_publish]. *)
Lemma main_dispatch_witness :
  run Commands.host_respond 14 Commands.main
    (Commands.healthy_host
       (Commands.mk_Namespace (Some "mqtt") (Some "publish")))
  = Commands.after
      [Call (inr1 Commands.ParseArgs)
         (Commands.mk_Namespace (Some "mqtt") (Some "publish"));
       Call (inr1 Commands.NewServiceManager) tt]
      (run Commands.host_respond 12 (Commands.method Cli.mqtt_publish)
         (Commands.healthy_host
            (Commands.mk_Namespace (Some "mqtt") (Some "publish")))).
Proof.
  destruct (main_dispatch Commands.host_respond
              (Commands.healthy_host
                 (Commands.mk_Namespace (Some "mqtt") (Some "publish")))
              12)
    as (_ & _ & _ & _ & _ & _ & _ & _ & _ & Hpublish).
  apply Hpublish; reflexivity.
Defined.

(** [worktracker update] on the healthy machine. *)
Lemma main_update_witness :
  exists code w' tr,
    run Commands.host_respond 12 Commands.main
      (Commands.healthy_host (Commands.mk_Namespace (Some "update") None))
    = Some (code, w', tr)
    /\ Commands.timer_log tr = [].
Proof.
  destruct (main_update Commands.host_respond
              (Commands.healthy_host
                 (Commands.mk_Namespace (Some "update") None)))
    as (code & w' & tr & Hrun & Htimer & _); [reflexivity |].
  exists code, w', tr. split; [exact Hrun | exact Htimer].
Defined.


(** ** The generated configuration, read back *)

Section ExportFacts.

Import Py HomeAssistant Hostname.

Lemma lacks_append (c : Ascii.ascii) (a b : string) :
  lacks c (a +:+ b) = lacks c a && lacks c b.
Proof.
  induction a as [|x a IH]; [done |].
  rewrite append_cons. cbn [lacks]. rewrite IH. by rewrite andb_assoc.
Qed.

Lemma append_cancel_l (a b c : string) : a +:+ b = a +:+ c -> b = c.
Proof.
  induction a as [|x a IH]; [done |].
  rewrite !append_cons. intros H. injection H as H. by apply IH.
Qed.

(** Equal strings that start with pieces of equal length start with the
    same piece. *)
Lemma append_split (a1 a2 r1 r2 : string) :
  a1 +:+ r1 = a2 +:+ r2 ->
  String.length a1 = String.length a2 ->
  a1 = a2 /\ r1 = r2.
Proof.
  revert a2. induction a1 as [|x a1 IH]; intros [|y a2] H Hlen;
    try discriminate Hlen.
  - done.
  - rewrite !append_cons in H. injection H as -> H.
    injection Hlen as Hlen. destruct (IH a2 H Hlen) as [-> ->]. done.
Qed.

Lemma unlines_app (ls1 ls2 : list string) :
  unlines (ls1 ++ ls2) = unlines ls1 +:+ unlines ls2.
Proof.
  induction ls1 as [|l ls1 IH]; [done |].
  cbn [app unlines]. rewrite IH. by rewrite !append_assoc.
Qed.

(** The configuration is 711 characters plus four copies of the host
    name. *)
Lemma yaml_config_length (h : string) :
  String.length (yaml_config h) = (711 + 4 * String.length h)%nat.
Proof.
  unfold yaml_config, yaml_lines. cbn [unlines].
  rewrite !length_append. unfold dq, nl. cbn [String.length]. lia.
Qed.

Lemma yaml_config_inj (h1 h2 : string) :
  yaml_config h1 = yaml_config h2 -> h1 = h2.
Proof.
  intros H.
  assert (Hlen : String.length h1 = String.length h2).
  { apply (f_equal String.length) in H.
    rewrite !yaml_config_length in H. lia. }
  unfold yaml_config in H.
  change (yaml_lines h1)
    with (firstn 4 (yaml_lines h1)
          ++ unique_id_line h1 :: skipn 5 (yaml_lines h1)) in H.
  change (yaml_lines h2)
    with (firstn 4 (yaml_lines h1)
          ++ unique_id_line h2 :: skipn 5 (yaml_lines h2)) in H.
  rewrite !unlines_app in H. apply append_cancel_l in H.
  cbn [unlines] in H. unfold unique_id_line in H.
  rewrite !append_assoc in H.
  do 3 apply append_cancel_l in H.
  by destruct (append_split _ _ _ _ H Hlen).
Qed.

Lemma unique_id_line_inj (h1 h2 : string) :
  unique_id_line h1 = unique_id_line h2 -> h1 = h2.
Proof.
  unfold unique_id_line. intros H.
  do 3 apply append_cancel_l in H.
  by apply append_cancel_r in H.
Qed.

Lemma state_topic_line_inj (h1 h2 : string) :
  state_topic_line h1 = state_topic_line h2 -> h1 = h2.
Proof.
  unfold state_topic_line. intros H.
  do 3 apply append_cancel_l in H.
  by apply append_cancel_r in H.
Qed.

(** Splitting into lines undoes joining them, for lines without a line
    feed. *)
Lemma split_lines_line (a rest cur : string) :
  lacks (Ascii.ascii_of_nat 10) a = true ->
  split_lines (a +:+ nl +:+ rest) cur
  = (cur +:+ a) :: split_lines rest EmptyString.
Proof.
  revert cur. induction a as [|x a IH]; intros cur Hno.
  - rewrite append_nil_l, append_nil_r. reflexivity.
  - cbn [lacks] in Hno. apply andb_prop in Hno as [Hx Hno].
    rewrite append_cons. cbn [split_lines].
    apply negb_true_iff in Hx. rewrite Hx.
    rewrite (IH _ Hno). by rewrite append_assoc.
Qed.

Lemma split_lines_unlines (ls : list string) :
  forallb (lacks (Ascii.ascii_of_nat 10)) ls = true ->
  split_lines (unlines ls) EmptyString = ls ++ [EmptyString].
Proof.
  induction ls as [|l ls IH]; intros Hno; [done |].
  cbn [forallb] in Hno. apply andb_prop in Hno as [Hl Hno].
  cbn [unlines]. rewrite (split_lines_line _ _ _ Hl).
  rewrite append_nil_l. by rewrite (IH Hno).
Qed.

Lemma until_quote_append (a b : string) :
  lacks (Ascii.ascii_of_nat 34) a = true ->
  until_quote (a +:+ dq +:+ b) = a.
Proof.
  induction a as [|x a IH]; intros Hno; [done |].
  cbn [lacks] in Hno. apply andb_prop in Hno as [Hx Hno].
  rewrite append_cons. cbn [until_quote].
  apply negb_true_iff in Hx. rewrite Hx. by rewrite (IH Hno).
Qed.

Lemma yaml_lines_plain (h : string) :
  lacks (Ascii.ascii_of_nat 10) h = true ->
  forallb (lacks (Ascii.ascii_of_nat 10)) (yaml_lines h) = true.
Proof.
  intros Hno. unfold yaml_lines. cbn [forallb].
  rewrite !lacks_append, !Hno. reflexivity.
Qed.

(** X14. Reading the generated configuration back: for a host name free
    of double quotes and line feeds, the [state_topic] field is
    ["worktracker/<host>/status"] and the [unique_id] field is
    ["worktracker_<host>_daily_time"]. *)
Lemma yaml_fields_read_back (h : string) :
  plain h = true ->
  yaml_field "state_topic" (yaml_config h)
  = Some ("worktracker/" +:+ h +:+ "/status")
  /\ yaml_field "unique_id" (yaml_config h)
     = Some ("worktracker_" +:+ h +:+ "_daily_time").
Proof.
  unfold plain. intros Hplain. apply andb_prop in Hplain as [Hq Hn].
  unfold yaml_field, yaml_config.
  rewrite (split_lines_unlines _ (yaml_lines_plain h Hn)).
  split.
  - unfold yaml_lines. cbn [app first_field].
    repeat match goal with
      | |- context [strip_prefix ?p (strip_spaces ?l)] =>
          let v := eval vm_compute in (strip_prefix p (strip_spaces l)) in
          match v with
          | None =>
              change (strip_prefix p (strip_spaces l)) with (@None string);
              cbv beta iota
          end
      end.
    change (strip_prefix ("state_topic" +:+ ": " +:+ dq)
              (strip_spaces
                 ("      state_topic: " +:+ dq +:+ "worktracker/" +:+ h
                  +:+ "/status" +:+ dq)))
      with (Some ("worktracker/" +:+ h +:+ "/status" +:+ dq)).
    cbv beta iota. f_equal.
    replace ("worktracker/" +:+ h +:+ "/status" +:+ dq)
      with (("worktracker/" +:+ h +:+ "/status") +:+ dq +:+ EmptyString)
      by (by rewrite !append_assoc, append_nil_r).
    apply until_quote_append.
    rewrite !lacks_append, Hq. reflexivity.
  - unfold yaml_lines. cbn [app first_field].
    repeat match goal with
      | |- context [strip_prefix ?p (strip_spaces ?l)] =>
          let v := eval vm_compute in (strip_prefix p (strip_spaces l)) in
          match v with
          | None =>
              change (strip_prefix p (strip_spaces l)) with (@None string);
              cbv beta iota
          end
      end.
    change (strip_prefix ("unique_id" +:+ ": " +:+ dq)
              (strip_spaces
                 ("      unique_id: " +:+ dq +:+ "worktracker_" +:+ h
                  +:+ "_daily_time" +:+ dq)))
      with (Some ("worktracker_" +:+ h +:+ "_daily_time" +:+ dq)).
    cbv beta iota. f_equal.
    replace ("worktracker_" +:+ h +:+ "_daily_time" +:+ dq)
      with (("worktracker_" +:+ h +:+ "_daily_time") +:+ dq +:+ EmptyString)
      by (by rewrite !append_assoc, append_nil_r).
    apply until_quote_append.
    rewrite !lacks_append, Hq. reflexivity.
Qed.

(** X15. The host name is written into the template as it is, without
    escaping: when it holds a double quote, the quoted [state_topic]
    value ends at that quote, so what is read back is
    ["worktracker/"] and the part of the host name before the quote. *)
Lemma yaml_state_topic_cut (a b : string) :
  lacks (Ascii.ascii_of_nat 34) a = true ->
  lacks (Ascii.ascii_of_nat 10) (a +:+ dq +:+ b) = true ->
  yaml_field "state_topic" (yaml_config (a +:+ dq +:+ b))
  = Some ("worktracker/" +:+ a).
Proof.
  intros Hq Hn. set (h := a +:+ dq +:+ b) in *.
  unfold yaml_field, yaml_config.
  rewrite (split_lines_unlines _ (yaml_lines_plain h Hn)).
  unfold yaml_lines. cbn [app first_field].
  repeat match goal with
    | |- context [strip_prefix ?p (strip_spaces ?l)] =>
        let v := eval vm_compute in (strip_prefix p (strip_spaces l)) in
        match v with
        | None =>
            change (strip_prefix p (strip_spaces l)) with (@None string);
            cbv beta iota
        end
    end.
  change (strip_prefix ("state_topic" +:+ ": " +:+ dq)
            (strip_spaces
               ("      state_topic: " +:+ dq +:+ "worktracker/" +:+ h
                +:+ "/status" +:+ dq)))
    with (Some ("worktracker/" +:+ h +:+ "/status" +:+ dq)).
  cbv beta iota. f_equal. subst h.
  replace ("worktracker/" +:+ (a +:+ dq +:+ b) +:+ "/status" +:+ dq)
    with (("worktracker/" +:+ a) +:+ dq +:+ (b +:+ "/status" +:+ dq))
    by (by rewrite !append_assoc).
  apply until_quote_append. rewrite lacks_append, Hq. reflexivity.
Qed.

(** X13. Different host names give different configurations: the
    generated text, its [unique_id] line and its [state_topic] line each
    determine the host name. *)
Lemma host_name_determined (h1 h2 : string) :
  (yaml_config h1 = yaml_config h2 -> h1 = h2)
  /\ (unique_id_line h1 = unique_id_line h2 -> h1 = h2)
  /\ (state_topic_line h1 = state_topic_line h2 -> h1 = h2).
Proof.
  split; [apply yaml_config_inj |].
  split; [apply unique_id_line_inj | apply state_topic_line_inj].
Qed.

End ExportFacts.

Lemma host_name_determined_witness :
  HomeAssistant.yaml_config "pc" <> HomeAssistant.yaml_config "laptop".
Proof.
  destruct (host_name_determined "pc" "laptop") as (Hinj & _).
  intros Heq. specialize (Hinj Heq). discriminate Hinj.
Defined.

Lemma yaml_fields_read_back_witness :
  HomeAssistant.yaml_field "state_topic" (HomeAssistant.yaml_config "pc")
  = Some ("worktracker/" +:+ "pc" +:+ "/status").
Proof.
  destruct (yaml_fields_read_back "pc") as (Htopic & _); [reflexivity |].
  exact Htopic.
Defined.

Lemma yaml_state_topic_cut_witness :
  HomeAssistant.yaml_field "state_topic"
    (HomeAssistant.yaml_config ("pc" +:+ Py.dq +:+ "x"))
  = Some ("worktracker/" +:+ "pc").
Proof.
  apply (yaml_state_topic_cut "pc" "x"); reflexivity.
Defined.

